(** * The restic [restore] command: selection engine and orchestration

    A shallow embedding of [cmd/restic/cmd_restore.go].  The closures built in
    [runRestore] (the two select filters, [res.Error], [res.Warn]) and the
    body of [runRestore] itself are translated statement by statement into a
    small state monad; the collaborators that live in other packages
    (pattern compilation, repository, restorer engine, clock, message
    printer) are parameters of the development. *)

From Stdlib Require Import ZArith List String Ascii Bool Lia DecimalString.
Import ListNotations.

Open Scope string_scope.
Open Scope Z_scope.

(** ** Go's [int] *)

Module GoInt.

(** [int] on the 64-bit platforms restic is built for. *)
Definition bits : Z := 64.
Definition MinInt : Z := - 2 ^ (bits - 1).
Definition MaxInt : Z := 2 ^ (bits - 1) - 1.

(** Two's complement wrap-around of a mathematical integer. *)
Definition wrap (z : Z) : Z := (z - MinInt) mod 2 ^ bits + MinInt.

Definition in_range (z : Z) : Prop := MinInt <= z <= MaxInt.

(** [x++] *)
Definition incr (x : Z) : Z := wrap (x + 1).

End GoInt.

(** ** Formatting verbs used by the command *)

Module Fmt.

Definition nl : string := String (ascii_of_nat 10) EmptyString.

(** [%d] on an [int]. *)
Definition d (z : Z) : string := NilZero.string_of_int (Z.to_int z).

(** [%v] on a [[]string]: the elements separated by blanks, in brackets. *)
Definition v_strings (xs : list string) : string :=
  "[" ++ String.concat " " xs ++ "]".

End Fmt.

(** ** Errors

    [errors.Fatal] and [errors.Fatalf] make a fatal error from a message;
    every other error value is told apart by its message.  How an error
    prints, [err.Error()], belongs to the packages that make it and is a
    collaborator below. *)

Inductive error : Type :=
| Fatal (msg : string)
| Plain (msg : string).

Definition Fatalf_errors (n : Z) : error :=
  Fatal ("There were " ++ Fmt.d n ++ " errors" ++ Fmt.nl).

(** A call that returns [(value, error)]. *)
Inductive result (A : Type) : Type :=
| Ok (a : A)
| Err (e : error).
Arguments Ok {A} a.
Arguments Err {A} e.

(** ** State monad, and the error layer above it *)

Definition M (S A : Type) : Type := S -> A * S.

Definition ret {S A} (a : A) : M S A := fun s => (a, s).

Definition bind {S A B} (c : M S A) (k : A -> M S B) : M S B :=
  fun s => let (a, s') := c s in k a s'.

Definition modify {S} (f : S -> S) : M S unit := fun s => (tt, f s).

Definition gets {S A} (f : S -> A) : M S A := fun s => (f s, s).

Declare Scope go_scope.
Delimit Scope go_scope with go.
Notation "x <- c ;; k" := (bind c (fun x => k))
  (at level 61, c at next level, right associativity) : go_scope.
Notation "c ;; k" := (bind c (fun _ => k))
  (at level 61, right associativity) : go_scope.

(** [E S A]: a computation that may leave the function with [return err]. *)
Definition E (S A : Type) : Type := M S (result A).

Definition ok {S A} (a : A) : E S A := ret (Ok a).

Definition fail {S A} (e : error) : E S A := ret (Err e).

Definition bindE {S A B} (c : E S A) (k : A -> E S B) : E S B :=
  fun s => match c s with
           | (Ok a, s') => k a s'
           | (Err e, s') => (Err e, s')
           end.

Definition liftE {S A} (c : M S A) : E S A :=
  fun s => let (a, s') := c s in (Ok a, s').

(** [if err != nil { return err }] after a call returning only an error. *)
Definition check {S} (c : M S (option error)) : E S unit :=
  fun s => match c s with
           | (None, s') => (Ok tt, s')
           | (Some e, s') => (Err e, s')
           end.

Notation "x <-! c ;; k" := (bindE c (fun x => k))
  (at level 61, c at next level, right associativity) : go_scope.
Notation "c ;;! k" := (bindE c (fun _ => k))
  (at level 61, right associativity) : go_scope.

(** The error a function body returns: [nil] when it runs to its end. *)
Definition returned {S} (c : E S unit) : M S (option error) :=
  fun s => match c s with
           | (Ok _, s') => (None, s')
           | (Err e, s') => (Some e, s')
           end.

(** ** [for _, x := range xs { ... }] with a [return] inside the body *)

Inductive ctl (V : Type) : Type :=
| Next (v : V)      (* the body fell through: go on with the next element *)
| Return (v : V).   (* the body executed [return] *)
Arguments Next {V} v.
Arguments Return {V} v.

Fixpoint for_range {S A V} (xs : list A) (body : A -> V -> M S (ctl V))
    (v : V) : M S (ctl V) :=
  match xs with
  | [] => ret (Next v)
  | x :: xs' =>
      fun s => match body x v s with
               | (Next v', s') => for_range xs' body v' s'
               | (Return v', s') => (Return v', s')
               end
  end.

Definition ctl_value {V} (c : ctl V) : V :=
  match c with Next v => v | Return v => v end.

(** ** Selection engine *)

(** [restic.Node]; of its fields the command reads [Type] only. *)
Record Node : Type := mkNode {
  Name : string;
  Node_Type : string
}.

Section Selection.

(** The world the pattern predicates may read or touch when called. *)
Variable W : Type.

(** What [CollectPatterns] returns for excludes: [func(string) bool]. *)
Definition RejectFn : Type := string -> M W bool.

(** For includes: [func(string) (matched, childMayMatch bool)]. *)
Definition IncludeFn : Type := string -> M W (bool * bool).

Local Open Scope go_scope.

(** Lines 152-166.  The pair threaded through the loop is the pair of
    named results, which start at their zero values. *)
Definition selectExcludeFilter (excludePatternFns : list RejectFn)
    (item : string) (_ : string) (node : Node) : M W (bool * bool) :=
  c <- for_range excludePatternFns
         (fun rejectFn (_ : bool * bool) =>
            matched <- rejectFn item ;;
            let selectedForRestore := negb matched in
            let childMayBeSelected :=
              selectedForRestore && (Node_Type node =? "dir")%string in
            ret (Return (selectedForRestore, childMayBeSelected)))
         (false, false) ;;
  ret (ctl_value c).

(** Lines 168-176. *)
Definition selectIncludeFilter (includePatternFns : list IncludeFn)
    (item : string) (_ : string) (node : Node) : M W (bool * bool) :=
  c <- for_range includePatternFns
         (fun includeFn (_ : bool * bool) =>
            r <- includeFn item ;;
            ret (Next r))
         (false, false) ;;
  let '(selectedForRestore, childMayBeSelected) := ctl_value c in
  let childMayBeSelected :=
    childMayBeSelected && (Node_Type node =? "dir")%string in
  ret (selectedForRestore, childMayBeSelected).

(** The world after every predicate of [fns] has been called on [item],
    first to last. *)
Definition called_in_order {A} (fns : list (string -> M W A))
    (item : string) (w : W) : W :=
  fold_left (fun w f => snd (f item w)) fns w.

End Selection.

Arguments selectExcludeFilter {W}.
Arguments selectIncludeFilter {W}.
Arguments called_in_order {W A}.

(** ** Options *)

(** [restic.SnapshotFilter] *)
Record SnapshotFilter : Type := mkSnapshotFilter {
  Hosts : list string;
  Paths : list string;
  Tags : list (list string)
}.

(** The fields of [GlobalOptions] that [runRestore] reads. *)
Record GlobalOptions : Type := mkGlobalOptions {
  NoLock : bool;
  Quiet : bool;
  JSON : bool;
  verbosity : Z
}.

(** Calls to collaborators, in the order they are made. *)
Inductive Event : Type :=
| EvDebugLog (line : string)
| EvOpenWithReadLock
| EvUnlock
| EvFindLatest (snapshotIDString : string)
| EvLoadIndex
| EvFindTreeDirectory (subfolder : string)
| EvMsgE (line : string)
| EvMsgP (line : string)
| EvRestoreTo (target : string)
| EvProgressFinish
| EvVerifyFiles (target : string).


Definition is_VerifyFiles (ev : Event) : bool :=
  match ev with EvVerifyFiles _ => true | _ => false end.

Definition is_MsgP (ev : Event) : bool :=
  match ev with EvMsgP _ => true | _ => false end.

Definition len {A} (xs : list A) : Z := Z.of_nat (List.length xs).

(** The collaborator calls of a run with their arguments and the printed
    lines left out: what remains is the order in which the command moves
    through its stages. *)
Inductive Call : Type :=
| COpen | CFindLatest | CLoadIndex | CFindTreeDirectory
| CRestoreTo | CProgressFinish | CVerifyFiles | CUnlock.

Definition call_of (ev : Event) : list Call :=
  match ev with
  | EvOpenWithReadLock => [COpen]
  | EvFindLatest _ => [CFindLatest]
  | EvLoadIndex => [CLoadIndex]
  | EvFindTreeDirectory _ => [CFindTreeDirectory]
  | EvRestoreTo _ => [CRestoreTo]
  | EvProgressFinish => [CProgressFinish]
  | EvVerifyFiles _ => [CVerifyFiles]
  | EvUnlock => [CUnlock]
  | EvDebugLog _ | EvMsgE _ | EvMsgP _ => []
  end.

Definition calls (evs : list Event) : list Call := flat_map call_of evs.

(** The stages between opening the repository and releasing it, in the
    order of the source text. *)
Definition pipeline : list Call :=
  [COpen; CFindLatest; CLoadIndex; CFindTreeDirectory; CRestoreTo;
   CProgressFinish; CVerifyFiles].

(** ** Restore orchestration *)

Set Implicit Arguments.

Section Orchestrator.

(** The outside world: file system, repository, terminal, clock. *)
Variable W : Type.

(** Types declared in other packages. *)
Variables excludePatternOptions includePatternOptions : Type.
Variables Repository Snapshot ID : Type.

(** [RestoreOptions], lines 45-52. *)
Record RestoreOptions : Type := mkRestoreOptions {
  excludeOpts : excludePatternOptions;
  includeOpts : includePatternOptions;
  Target : string;
  snapshotFilter : SnapshotFilter;
  Sparse : bool;
  Verify : bool
}.

(** What the restorer does during [RestoreTo] or [VerifyFiles], seen from
    the command: a tree of calls into the three callbacks the command
    installed, each continued according to what the callback returned,
    with work on the outside world in between. *)
Inductive Engine (R : Type) : Type :=
| Done (r : R)
| CallError (location : string) (err : error) (k : option error -> Engine R)
| CallWarn (message : string) (k : Engine R)
| CallSelect (item dstpath : string) (node : Node)
    (k : bool * bool -> Engine R)
| Work (f : W -> W) (k : W -> Engine R).
Arguments Done {R} r.
Arguments CallError {R} location err k.
Arguments CallWarn {R} message k.
Arguments CallSelect {R} item dstpath node k.
Arguments Work {R} f k.

(** The collaborators [runRestore] calls. *)
Record Externals : Type := mkExternals {
  (* the option fields read at lines 73-74 *)
  Excludes : excludePatternOptions -> list string;
  InsensitiveExcludes : excludePatternOptions -> list string;
  Includes : includePatternOptions -> list string;
  InsensitiveIncludes : includePatternOptions -> list string;
  (* the two [CollectPatterns] methods *)
  CollectExcludePatterns :
    excludePatternOptions -> M W (result (list (RejectFn W)));
  CollectIncludePatterns :
    includePatternOptions -> M W (result (list (IncludeFn W)));
  (* repository *)
  openWithReadLock : GlobalOptions -> bool -> M W (result Repository);
  unlock : Repository -> M W unit;
  FindLatest :
    SnapshotFilter -> Repository -> string -> M W (result (Snapshot * string));
  LoadIndex : Repository -> M W (option error);
  Tree : Snapshot -> ID;
  set_Tree : Snapshot -> ID -> Snapshot;
  FindTreeDirectory : Repository -> ID -> string -> M W (result ID);
  Snapshot_String : Snapshot -> string;
  (* restorer *)
  NewRestorer_SelectFilter : string -> string -> Node -> M W (bool * bool);
  RestoreTo_engine :
    Repository -> Snapshot -> bool -> string -> Engine (option error);
  VerifyFiles_engine :
    Repository -> Snapshot -> bool -> string -> Engine (Z * option error);
  (* [err.Error()], which [%v] and [%s] print for an error *)
  Error_string : error -> string;
  (* package [time]: the clock in nanoseconds, [Duration.Round] and
     [Duration.String] *)
  Now : W -> Z;
  Duration_Round : Z -> Z -> Z;
  Duration_String : Z -> string
}.

Variable ext : Externals.

(** The state [runRestore] works on: the world, the local [totalErrors]
    captured by the [res.Error] closure, and the calls made so far. *)
Record State : Type := mkState {
  world : W;
  totalErrors : Z;
  events : list Event
}.

Definition set_world (w : W) (s : State) : State :=
  mkState w (totalErrors s) (events s).

Definition set_totalErrors (n : Z) (s : State) : State :=
  mkState (world s) n (events s).

(** [s] with one more call on record. *)
Definition logged (ev : Event) (s : State) : State :=
  mkState (world s) (totalErrors s) (events s ++ [ev]).

Definition emit (ev : Event) : M State unit := modify (logged ev).

(** A computation on the world, run inside the command's state. *)
Definition on_world {A} (c : M W A) : M State A :=
  fun s => let (a, w') := c (world s) in (a, set_world w' s).

Local Open Scope go_scope.

(** [msg.E] and [msg.P] of [ui.Message]. *)
Definition msg_E (line : string) : M State unit := emit (EvMsgE line).
Definition msg_P (line : string) : M State unit := emit (EvMsgP line).

(** The callback fields of [restorer.Restorer]. *)
Record Restorer : Type := mkRestorer {
  res_Error : string -> error -> M State (option error);
  res_Warn : string -> M State unit;
  res_SelectFilter : string -> string -> Node -> M State (bool * bool)
}.

(** Lines 143-147. *)
Definition Error_callback (location : string) (err : error)
    : M State (option error) :=
  msg_E ("ignoring error for " ++ location ++ ": "
         ++ Error_string ext err ++ Fmt.nl) ;;
  modify (fun s => set_totalErrors (GoInt.incr (totalErrors s)) s) ;;
  ret None.

(** Lines 148-150. *)
Definition Warn_callback (message : string) : M State unit :=
  msg_E ("Warning: " ++ message ++ Fmt.nl).

(** The select filter [restorer.NewRestorer] has installed, which the
    command leaves in place when no pattern was given. *)
Definition default_SelectFilter (item dstpath : string) (node : Node)
    : M State (bool * bool) :=
  on_world (NewRestorer_SelectFilter ext item dstpath node).

(** Running the restorer against the installed callbacks. *)
Fixpoint run_engine {R} (res : Restorer) (e : Engine R) : M State R :=
  match e with
  | Done r => ret r
  | CallError location err k =>
      fun s => let (d, s') := res_Error res location err s in
               run_engine res (k d) s'
  | CallWarn message k =>
      fun s => let (_, s') := res_Warn res message s in
               run_engine res k s'
  | CallSelect item dstpath node k =>
      fun s => let (d, s') := res_SelectFilter res item dstpath node s in
               run_engine res (k d) s'
  | Work f k =>
      fun s => let w' := f (world s) in
               run_engine res (k w') (set_world w' s)
  end.

(** How many times the run of [e] from [s] calls [res.Error]. *)
Fixpoint error_reports {R} (res : Restorer) (e : Engine R) (s : State) : Z :=
  match e with
  | Done _ => 0
  | CallError location err k =>
      let (d, s') := res_Error res location err s in
      1 + error_reports res (k d) s'
  | CallWarn message k =>
      let (_, s') := res_Warn res message s in
      error_reports res k s'
  | CallSelect item dstpath node k =>
      let (d, s') := res_SelectFilter res item dstpath node s in
      error_reports res (k d) s'
  | Work f k =>
      let w' := f (world s) in
      error_reports res (k w') (set_world w' s)
  end.

Definition Millisecond : Z := 1000000.

(** [defer d]: [d] runs when the rest of the function is left, on every
    path. *)
Definition defer {A} (d : M State unit) (body : E State A) : E State A :=
  fun s => let (r, s') := body s in
           let (_, s'') := d s' in (r, s'').

Definition when (b : bool) (c : M State unit) : M State unit :=
  if b then c else ret tt.

(** Lines 73-74. *)
Definition hasExcludes (opts : RestoreOptions) : bool :=
  (0 <? len (Excludes ext (excludeOpts opts)))
  || (0 <? len (InsensitiveExcludes ext (excludeOpts opts))).

Definition hasIncludes (opts : RestoreOptions) : bool :=
  (0 <? len (Includes ext (includeOpts opts)))
  || (0 <? len (InsensitiveIncludes ext (includeOpts opts))).

(** Lines 140-182: the restorer with its three callbacks installed. *)
Definition installed_restorer (opts : RestoreOptions)
    (excludePatternFns : list (RejectFn W))
    (includePatternFns : list (IncludeFn W)) : Restorer :=
  mkRestorer Error_callback Warn_callback
    (if hasExcludes opts then
       fun item dstpath node =>
         on_world (selectExcludeFilter excludePatternFns item dstpath node)
     else if hasIncludes opts then
       fun item dstpath node =>
         on_world (selectIncludeFilter includePatternFns item dstpath node)
     else default_SelectFilter).

(** Lines 195-219: the two error gates around the optional
    verification. *)
Definition gate_and_verify (opts : RestoreOptions) (gopts : GlobalOptions)
    (res : Restorer) (repo : Repository) (sn : Snapshot) : E State unit :=
  n1 <-! liftE (gets totalErrors) ;;
  if 0 <? n1 then fail (Fatalf_errors n1) else
  if Verify opts then
    liftE (when (negb (JSON gopts))
             (msg_P ("verifying files in " ++ Target opts ++ Fmt.nl))) ;;!
    t0 <-! liftE (gets (fun s => Now ext (world s))) ;;
    liftE (emit (EvVerifyFiles (Target opts))) ;;!
    r <-! liftE (run_engine res
                   (VerifyFiles_engine ext repo sn (Sparse opts)
                      (Target opts))) ;;
    let (count, err) := (r : Z * option error) in
    check (ret err) ;;!
    n2 <-! liftE (gets totalErrors) ;;
    if 0 <? n2 then fail (Fatalf_errors n2) else
    liftE (when (negb (JSON gopts))
             (since <- gets (fun s => Now ext (world s) - t0) ;;
              msg_P ("finished verifying " ++ Fmt.d count
                     ++ " files in " ++ Target opts ++ " (took "
                     ++ Duration_String ext
                          (Duration_Round ext since Millisecond)
                     ++ ")" ++ Fmt.nl)))
  else ok tt.

(** Lines 70-220; lines 140-182 and 195-219 are the two definitions
    above. *)
Definition runRestore (opts : RestoreOptions) (gopts : GlobalOptions)
    (args : list string) : M State (option error) :=
  returned (
    let hasExcludes := hasExcludes opts in
    let hasIncludes := hasIncludes opts in
    excludePatternFns <-!
      on_world (CollectExcludePatterns ext (excludeOpts opts)) ;;
    includePatternFns <-!
      on_world (CollectIncludePatterns ext (includeOpts opts)) ;;
    (if len args =? 0 then
       fail (Fatal "no snapshot ID specified")
     else if 1 <? len args then
       fail (Fatal ("more than one snapshot ID specified: "
                    ++ Fmt.v_strings args))
     else ok tt) ;;!
    (if (Target opts =? EmptyString)%string then
       fail (Fatal "please specify a directory to restore to (--target)")
     else ok tt) ;;!
    (if hasExcludes && hasIncludes then
       fail (Fatal "exclude and include patterns are mutually exclusive")
     else ok tt) ;;!
    (* [args[0]]; the switch above has left exactly one argument *)
    let snapshotIDString := nth 0 args EmptyString in
    liftE (emit (EvDebugLog ("restore " ++ snapshotIDString ++ " to "
                             ++ Target opts))) ;;!
    liftE (emit EvOpenWithReadLock) ;;!
    repo <-! on_world (openWithReadLock ext gopts (NoLock gopts)) ;;
    defer (emit EvUnlock ;; on_world (unlock ext repo)) (
      liftE (emit (EvFindLatest snapshotIDString)) ;;!
      found <-! (fun s =>
        match on_world (FindLatest ext
                          (mkSnapshotFilter (Hosts (snapshotFilter opts))
                             (Paths (snapshotFilter opts))
                             (Tags (snapshotFilter opts)))
                          repo snapshotIDString) s with
        | (Ok r, s') => (Ok r, s')
        | (Err err, s') =>
            (Err (Fatal ("failed to find snapshot: "
                         ++ Error_string ext err)),
             s')
        end) ;;
      let (sn, subfolder) := (found : Snapshot * string) in
      liftE (emit EvLoadIndex) ;;!
      check (on_world (LoadIndex ext repo)) ;;!
      liftE (emit (EvFindTreeDirectory subfolder)) ;;!
      tree <-! on_world (FindTreeDirectory ext repo (Tree ext sn)
                           subfolder) ;;
      let sn := set_Tree ext sn tree in
      (* line 142 *)
      liftE (modify (set_totalErrors 0)) ;;!
      let res := installed_restorer opts excludePatternFns
                   includePatternFns in
      liftE (when (negb (JSON gopts))
               (msg_P ("restoring " ++ Snapshot_String ext sn ++ " to "
                       ++ Target opts ++ Fmt.nl))) ;;!
      liftE (emit (EvRestoreTo (Target opts))) ;;!
      check (run_engine res
               (RestoreTo_engine ext repo sn (Sparse opts)
                  (Target opts))) ;;!
      liftE (emit EvProgressFinish) ;;!
      gate_and_verify opts gopts res repo sn)).

(** A run of the command from a given world. *)
Definition start (w : W) : State := mkState w 0 [].

(** *** Vocabulary for the statements below *)


(** The calls made, in order, when everything up to and including
    [RestoreTo] is reached. *)
Definition events_until_restore (opts : RestoreOptions)
    (gopts : GlobalOptions) (snapshotIDString subfolder : string)
    (sn : Snapshot) : list Event :=
  [ EvDebugLog ("restore " ++ snapshotIDString ++ " to " ++ Target opts);
    EvOpenWithReadLock;
    EvFindLatest snapshotIDString;
    EvLoadIndex;
    EvFindTreeDirectory subfolder ]
  ++ (if JSON gopts then []
      else [EvMsgP ("restoring " ++ Snapshot_String ext sn ++ " to "
                    ++ Target opts ++ Fmt.nl)])
  ++ [ EvRestoreTo (Target opts) ].

(** The run from world [w] passes validation, opens the repository, finds
    the snapshot and its tree, and is about to run [res.RestoreTo] from
    state [s0] with restorer [res] on snapshot [sn] of repository
    [repo]. *)
Inductive restore_starts (opts : RestoreOptions) (gopts : GlobalOptions)
    (args : list string) (w : W)
    (res : Restorer) (repo : Repository) (sn : Snapshot) (s0 : State)
    : Prop :=
| RestoreStarts
    (excludePatternFns : list (RejectFn W))
    (includePatternFns : list (IncludeFn W))
    (w1 w2 w3 w4 w5 w6 : W) (snapshotIDString subfolder : string)
    (sn0 : Snapshot) (tree : ID)
    (Hexcl : CollectExcludePatterns ext (excludeOpts opts) w
             = (Ok excludePatternFns, w1))
    (Hincl : CollectIncludePatterns ext (includeOpts opts) w1
             = (Ok includePatternFns, w2))
    (Hargs : args = [snapshotIDString])
    (Htarget : Target opts <> EmptyString)
    (Hmode : hasExcludes opts && hasIncludes opts = false)
    (Hopen : openWithReadLock ext gopts (NoLock gopts) w2 = (Ok repo, w3))
    (Hfind : FindLatest ext
               (mkSnapshotFilter (Hosts (snapshotFilter opts))
                  (Paths (snapshotFilter opts))
                  (Tags (snapshotFilter opts)))
               repo snapshotIDString w3
             = (Ok (sn0, subfolder), w4))
    (Hindex : LoadIndex ext repo w4 = (None, w5))
    (Htree : FindTreeDirectory ext repo (Tree ext sn0) subfolder w5
             = (Ok tree, w6))
    (Hres : res = installed_restorer opts excludePatternFns
                    includePatternFns)
    (Hsn : sn = set_Tree ext sn0 tree)
    (Hs0 : s0 = mkState w6 0
                  (events_until_restore opts gopts snapshotIDString
                     subfolder sn)).

(** [RestoreTo] returned [nil], leaving state [s1]; [n] is the number of
    per-item errors it reported through [res.Error]. *)
Definition restore_completes (opts : RestoreOptions) (gopts : GlobalOptions)
    (args : list string) (w : W)
    (res : Restorer) (repo : Repository) (sn : Snapshot)
    (n : Z) (s1 : State) : Prop :=
  exists s0,
    restore_starts opts gopts args w res repo sn s0 /\
    run_engine res
      (RestoreTo_engine ext repo sn (Sparse opts) (Target opts)) s0
    = (None, s1) /\
    n = error_reports res
          (RestoreTo_engine ext repo sn (Sparse opts) (Target opts)) s0.

(** The state in which [res.VerifyFiles] is called when [RestoreTo] left
    state [s1]. *)
Definition verify_entry (opts : RestoreOptions) (gopts : GlobalOptions)
    (s1 : State) : State :=
  logged (EvVerifyFiles (Target opts))
    (if JSON gopts then logged EvProgressFinish s1
     else logged (EvMsgP ("verifying files in " ++ Target opts ++ Fmt.nl))
            (logged EvProgressFinish s1)).

(** The line of line 214, for [count] files and a verification that ran
    from clock reading [t0] to state [s2]. *)
Definition finished_line (opts : RestoreOptions) (count t0 : Z)
    (s2 : State) : string :=
  "finished verifying " ++ Fmt.d count ++ " files in " ++ Target opts
  ++ " (took "
  ++ Duration_String ext
       (Duration_Round ext (Now ext (world s2) - t0) Millisecond)
  ++ ")" ++ Fmt.nl.

(** The deferred [unlock()] applied to the state in which the function
    body was left. *)
Definition unlocked (repo : Repository) (s : State) : State :=
  mkState (snd (unlock ext repo (world s))) (totalErrors s)
    (events s ++ [EvUnlock]).

(** The run from world [w] compiles both pattern groups, leaving world
    [w2], and passes the three checks with [snapshotIDString] as its only
    argument. *)
Inductive validated (opts : RestoreOptions) (args : list string) (w : W)
    (excludePatternFns : list (RejectFn W))
    (includePatternFns : list (IncludeFn W))
    (snapshotIDString : string) (w2 : W) : Prop :=
| Validated (w1 : W)
    (Hexcl : CollectExcludePatterns ext (excludeOpts opts) w
             = (Ok excludePatternFns, w1))
    (Hincl : CollectIncludePatterns ext (includeOpts opts) w1
             = (Ok includePatternFns, w2))
    (Hargs : args = [snapshotIDString])
    (Htarget : Target opts <> EmptyString)
    (Hmode : hasExcludes opts && hasIncludes opts = false).

(** The calls on record once [openWithReadLock] has been called. *)
Definition events_until_open (opts : RestoreOptions)
    (snapshotIDString : string) : list Event :=
  [ EvDebugLog ("restore " ++ snapshotIDString ++ " to " ++ Target opts);
    EvOpenWithReadLock ].

(** The filter handed to [FindLatest], lines 111-115. *)
Definition latest_filter (opts : RestoreOptions) : SnapshotFilter :=
  mkSnapshotFilter (Hosts (snapshotFilter opts)) (Paths (snapshotFilter opts))
    (Tags (snapshotFilter opts)).

(** The state in which the command is left when it fails between opening
    the repository and the restore: the deferred [unlock()] has run in world
    [w'], after the calls [evs]. *)
Definition released (repo : Repository) (w' : W) (evs : list Event) : State :=
  mkState (snd (unlock ext repo w')) 0 (evs ++ [EvUnlock]).

(** What can be said of the last state of any run: the stages it went
    through, the lines it printed, its count against its result, and how far
    a successful run has gone. *)
Definition run_shape_of (opts : RestoreOptions) (gopts : GlobalOptions)
    (run : option error * State) : Prop :=
  (calls (events (snd run)) = []
   \/ calls (events (snd run)) = [COpen]
   \/ exists k : nat,
        (2 <= k <= 7)%nat
        /\ calls (events (snd run)) = (firstn k pipeline ++ [CUnlock])%list)
  /\ (JSON gopts = true -> existsb is_MsgP (events (snd run)) = false)
  /\ (0 < totalErrors (snd run) -> fst run <> None)
  /\ (fst run = None ->
      calls (events (snd run))
      = (firstn (if Verify opts then 7 else 6) pipeline ++ [CUnlock])%list).

End Orchestrator.

Unset Implicit Arguments.

Arguments Done {W R} r.
Arguments CallWarn {W R} message k.

(** ** A small concrete setting

    The world is a journal of names: every predicate writes its name when it
    is called, and the clock advances with the journal. *)

Module Demo.

Definition World : Type := list string.

Definition journaled {A} (name : string) (f : string -> A)
    : string -> M World A :=
  fun item w => (f item, (w ++ [name])%list).

Definition P1 : RejectFn World := journaled "P1" (fun _ => false).
Definition P2 : RejectFn World := journaled "P2" (fun _ => true).
Definition Q1 : IncludeFn World := journaled "Q1" (fun _ => (true, true)).
Definition Q2 : IncludeFn World := journaled "Q2" (fun _ => (false, true)).

Definition file : Node := mkNode "notes.txt" "file".
Definition dir : Node := mkNode "docs" "dir".

(** Pattern options: the plain and the case-insensitive patterns. *)
Record Patterns : Type := mkPatterns {
  plain : list string;
  insensitive : list string
}.

Definition no_patterns : Patterns := mkPatterns [] [].

(** Compilation refuses an empty pattern; every other pattern becomes a
    predicate matching exactly that path. *)
Definition collect {A} (flag : string) (hit : bool -> A) (ps : Patterns)
    : M World (result (list (string -> M World A))) :=
  fun w =>
    if existsb (String.eqb EmptyString) (plain ps ++ insensitive ps) then
      (Err (Fatal (flag ++ ": invalid pattern(s) provided")), w)
    else
      (Ok (map (fun p => journaled p (fun item => hit (item =? p)%string))
             (plain ps ++ insensitive ps)), w).

Definition tick (what : string) {A} (a : A) : M World A :=
  fun w => (a, (w ++ [what])%list).

Definition ext (restoreTo : Engine World (option error))
    (verifyFiles : Engine World (Z * option error))
    : Externals World Patterns Patterns unit (string * string) string :=
  {| Excludes := plain;
     InsensitiveExcludes := insensitive;
     Includes := plain;
     InsensitiveIncludes := insensitive;
     CollectExcludePatterns := collect "--exclude" (fun b => b);
     CollectIncludePatterns := collect "--include" (fun b => (b, b));
     openWithReadLock := fun _ _ => tick "open" (Ok tt);
     unlock := fun _ => tick "unlock" tt;
     FindLatest := fun _ _ id => tick "find" (Ok ((id, "root"), "sub"));
     LoadIndex := fun _ => tick "index" None;
     Tree := snd;
     set_Tree := fun sn t => (fst sn, t);
     FindTreeDirectory := fun _ t sub => tick "tree" (Ok (t ++ "/" ++ sub));
     Snapshot_String := fst;
     Error_string := fun e =>
       match e with Fatal m => "Fatal: " ++ m | Plain m => m end;
     NewRestorer_SelectFilter := fun _ _ _ => ret (true, true);
     RestoreTo_engine := fun _ _ _ _ => restoreTo;
     VerifyFiles_engine := fun _ _ _ _ => verifyFiles;
     Now := fun w => 1500000 * len w;
     Duration_Round := fun d m => (d + m / 2) / m * m;
     Duration_String := fun d => Fmt.d (d / 1000000) ++ "ms" |}.

Definition opts (excl incl : Patterns) (target : string) (verify : bool)
    : RestoreOptions Patterns Patterns :=
  mkRestoreOptions excl incl target (mkSnapshotFilter [] [] []) false verify.

Definition gopts (json : bool) : GlobalOptions :=
  mkGlobalOptions false false json 1.

(** A restore that reports three per-item errors and returns [nil]. *)
Definition three_errors : Engine World (option error) :=
  CallError "/a" (Plain "permission denied") (fun _ =>
  CallError "/b" (Plain "permission denied") (fun _ =>
  CallError "/c" (Plain "no space left") (fun _ =>
  Done None))).

Definition clean_restore : Engine World (option error) :=
  Work (fun w => (w ++ ["write /a"])%list) (fun _ => Done None).

(** A verification that finds one mismatch among two files. *)
Definition one_mismatch : Engine World (Z * option error) :=
  CallError "/a" (Plain "unexpected content") (fun _ => Done (2, None)).

Definition clean_verify : Engine World (Z * option error) :=
  Work (fun w => (w ++ ["read /a"])%list) (fun _ => Done (1, None)).

(** The stage at which a collaborator is made to fail. *)
Inductive Stage : Type :=
| AtOpen | AtFindLatest | AtLoadIndex | AtFindTreeDirectory.

(** The setting above with one collaborator failing. *)
Definition ext_failing (stage : Stage)
    : Externals World Patterns Patterns unit (string * string) string :=
  let base := ext clean_restore clean_verify in
  {| Excludes := Excludes base;
     InsensitiveExcludes := InsensitiveExcludes base;
     Includes := Includes base;
     InsensitiveIncludes := InsensitiveIncludes base;
     CollectExcludePatterns := CollectExcludePatterns base;
     CollectIncludePatterns := CollectIncludePatterns base;
     openWithReadLock := fun g n =>
       match stage with
       | AtOpen => tick "open" (Err (Fatal "unable to open repository"))
       | _ => openWithReadLock base g n
       end;
     unlock := unlock base;
     FindLatest := fun f r id =>
       match stage with
       | AtFindLatest => tick "find" (Err (Fatal "no snapshot found"))
       | _ => FindLatest base f r id
       end;
     LoadIndex := fun r =>
       match stage with
       | AtLoadIndex => tick "index" (Some (Plain "index unreadable"))
       | _ => LoadIndex base r
       end;
     Tree := Tree base;
     set_Tree := set_Tree base;
     FindTreeDirectory := fun r t sub =>
       match stage with
       | AtFindTreeDirectory => tick "tree" (Err (Plain "path not found"))
       | _ => FindTreeDirectory base r t sub
       end;
     Snapshot_String := Snapshot_String base;
     Error_string := Error_string base;
     NewRestorer_SelectFilter := NewRestorer_SelectFilter base;
     RestoreTo_engine := RestoreTo_engine base;
     VerifyFiles_engine := VerifyFiles_engine base;
     Now := Now base;
     Duration_Round := Duration_Round base;
     Duration_String := Duration_String base |}.

(** A restore that reports one error and then gives up with an error of its
    own. *)
Definition aborted_restore : Engine World (option error) :=
  CallError "/a" (Plain "permission denied") (fun _ =>
  Done (Some (Plain "context canceled"))).

(** A verification that reports one mismatch and then gives up. *)
Definition aborted_verify : Engine World (Z * option error) :=
  CallError "/a" (Plain "unexpected content") (fun _ =>
  Done (0, Some (Plain "context canceled"))).

(** A restore that only warns. *)
Definition warning_restore : Engine World (option error) :=
  CallWarn "ownership not restored" (CallSelect "/a" "/tmp/t/a" file (fun _ =>
  Done None)).

End Demo.

(** * Properties *)

(** ** Go's [int] *)

Lemma wrap_in_range z : GoInt.in_range z -> GoInt.wrap z = z.
Proof.
  unfold GoInt.in_range, GoInt.wrap, GoInt.MinInt, GoInt.MaxInt, GoInt.bits.
  intros H. rewrite Z.mod_small; lia.
Qed.

Lemma incr_below_max x :
  GoInt.MinInt <= x < GoInt.MaxInt -> GoInt.incr x = x + 1.
Proof.
  intros H. unfold GoInt.incr. apply wrap_in_range.
  unfold GoInt.in_range. lia.
Qed.

(** At the largest [int] the increment wraps around. *)
Lemma incr_wraps_at_max : GoInt.incr GoInt.MaxInt = GoInt.MinInt.
Proof. reflexivity. Qed.

Lemma MaxInt_pos : 0 < GoInt.MaxInt.
Proof. reflexivity. Qed.

Lemma MinInt_neg : GoInt.MinInt < 0.
Proof. reflexivity. Qed.

(** ** The range loop *)

Section LoopFacts.

Context {S A V : Type}.

Lemma for_range_app (xs ys : list A) (body : A -> V -> M S (ctl V))
    (v : V) (s : S) :
  for_range (xs ++ ys) body v s =
  match for_range xs body v s with
  | (Next v', s') => for_range ys body v' s'
  | (Return v', s') => (Return v', s')
  end.
Proof.
  revert v s. induction xs as [|x xs IH]; intros v s; cbn [app for_range].
  - reflexivity.
  - destruct (body x v s) as [[v'|v'] s']; [apply IH | reflexivity].
Qed.

End LoopFacts.

(** ** Selection engine *)

Section SelectionFacts.

Context {W : Type}.

Implicit Types (item dstpath : string) (node : Node) (w : W).

(** The include loop never returns early: it calls every predicate, first
    to last, and leaves the loop with some [Next]. *)
Lemma include_loop_runs_all (fns : list (IncludeFn W)) item
    (v : bool * bool) w :
  exists v',
    for_range fns
      (fun includeFn (_ : bool * bool) => bind (includeFn item)
                                            (fun r => ret (Next r)))
      v w
    = (Next v', called_in_order fns item w).
Proof.
  revert v w. induction fns as [|f fns IH]; intros v w.
  - exists v. reflexivity.
  - cbn [for_range called_in_order fold_left]. unfold bind at 1, ret at 1.
    destruct (f item w) as [r w1]. cbn [snd].
    destruct (IH r w1) as [v' Hv']. exists v'. exact Hv'.
Qed.

Lemma is_dir_false node :
  Node_Type node <> "dir" -> (Node_Type node =? "dir")%string = false.
Proof. intros H. now apply String.eqb_neq. Qed.

(** The exclude loop returns in its first iteration. *)
Lemma exclude_cons (first : RejectFn W) (rest : list (RejectFn W))
    item dstpath node w :
  selectExcludeFilter (first :: rest) item dstpath node w
  = (let (matched, w') := first item w in
     ((negb matched, negb matched && (Node_Type node =? "dir")%string), w')).
Proof.
  unfold selectExcludeFilter, bind, ret. cbn [for_range].
  destruct (first item w) as [matched w']. reflexivity.
Qed.

(** C1: in Exclude mode with a non-empty list of reject predicates, the
    decision is the one of the first predicate alone: its result [matched]
    gives [selectedForRestore = !matched] and [childMayBeSelected =
    selectedForRestore && node is a directory]; the only effects on the
    world are those of the first predicate, so no later predicate is
    called, and replacing the later predicates by any others changes
    nothing. *)
Theorem exclude_first_predicate_only (first : RejectFn W)
    (rest : list (RejectFn W)) item dstpath node w :
  selectExcludeFilter (first :: rest) item dstpath node w
  = (let (matched, w') := first item w in
     ((negb matched, negb matched && (Node_Type node =? "dir")%string), w'))
  /\ forall rest' : list (RejectFn W),
       selectExcludeFilter (first :: rest') item dstpath node w
       = selectExcludeFilter (first :: rest) item dstpath node w.
Proof.
  split.
  - apply exclude_cons.
  - intros rest'. now rewrite !exclude_cons.
Qed.

(** C2: in Include mode with a non-empty list of include predicates, every
    predicate is called, in order; the decision is the result of the last
    one, whatever the earlier ones returned: [selectedForRestore] is its
    [selected] and [childMayBeSelected] is its [childMayMatch] ANDed with
    node being a directory. *)
Theorem include_last_predicate_wins (earlier : list (IncludeFn W))
    (last : IncludeFn W) item dstpath node w :
  selectIncludeFilter (earlier ++ [last]) item dstpath node w
  = (let w1 := called_in_order earlier item w in
     let '(selected, childMayMatch, w2) := last item w1 in
     ((selected, childMayMatch && (Node_Type node =? "dir")%string), w2)).
Proof.
  unfold selectIncludeFilter, bind at 1.
  rewrite for_range_app.
  destruct (include_loop_runs_all earlier item (false, false) w)
    as [v' Hv'].
  rewrite Hv'. cbn [for_range]. unfold bind at 1, ret at 1.
  cbv zeta.
  destruct (last item (called_in_order earlier item w))
    as [[selected childMayMatch] w2].
  reflexivity.
Qed.

(** C5: with an empty predicate list either selector returns the zero
    decision, and leaves the world as it was. *)
Theorem empty_predicate_list_selects_nothing item dstpath node w :
  selectExcludeFilter [] item dstpath node w = ((false, false), w)
  /\ selectIncludeFilter [] item dstpath node w = ((false, false), w).
Proof. split; reflexivity. Qed.

(** C6: for a node that is not a directory, [childMayBeSelected] is false
    in both modes, whatever the predicates are and return. *)
Theorem non_directory_never_descends
    (rejectFns : list (RejectFn W)) (includeFns : list (IncludeFn W))
    item dstpath node w :
  Node_Type node <> "dir" ->
  snd (fst (selectExcludeFilter rejectFns item dstpath node w)) = false
  /\ snd (fst (selectIncludeFilter includeFns item dstpath node w)) = false.
Proof.
  intros Hfile. apply is_dir_false in Hfile. split.
  - destruct rejectFns as [|first rest].
    + reflexivity.
    + rewrite exclude_cons.
      destruct (first item w) as [matched w']. cbn [fst snd].
      rewrite Hfile. apply andb_false_r.
  - unfold selectIncludeFilter, bind at 1.
    destruct (include_loop_runs_all includeFns item (false, false) w)
      as [[sel child] Hv'].
    rewrite Hv'. cbn [ctl_value]. unfold ret. cbn [fst snd].
    rewrite Hfile. apply andb_false_r.
Qed.

(** X13: Lines 156-163: in Exclude mode traversal descends exactly into the
    selected directories, for every list of predicates, the empty one
    included. *)
Theorem exclude_descends_into_selected_directories
    (rejectFns : list (RejectFn W)) item dstpath node w :
  let decision := fst (selectExcludeFilter rejectFns item dstpath node w) in
  snd decision = fst decision && (Node_Type node =? "dir")%string.
Proof.
  cbv zeta. destruct rejectFns as [|first rest].
  - reflexivity.
  - rewrite exclude_cons. destruct (first item w) as [matched w'].
    reflexivity.
Qed.

End SelectionFacts.

(** With [P1] never matching and [P2] always matching, the node is selected
    and only [P1] has been called. *)
Example exclude_P1_P2 :
  selectExcludeFilter [Demo.P1; Demo.P2] "docs" "/t/docs" Demo.dir []
  = ((true, true), ["P1"]).
Proof. reflexivity. Qed.

(** With [Q1] selecting and [Q2] not, the node is not selected; both have
    been called, [Q1] first. *)
Example include_Q1_Q2 :
  selectIncludeFilter [Demo.Q1; Demo.Q2] "docs" "/t/docs" Demo.dir []
  = ((false, true), ["Q1"; "Q2"]).
Proof. reflexivity. Qed.

Lemma non_directory_never_descends_witness :
  Node_Type Demo.file <> "dir"
  /\ snd (fst (selectExcludeFilter [Demo.P1; Demo.P2] "notes.txt" "/t/notes.txt"
                 Demo.file [])) = false
  /\ snd (fst (selectIncludeFilter [Demo.Q2; Demo.Q1] "notes.txt" "/t/notes.txt"
                 Demo.file [])) = false.
Proof.
  split.
  - discriminate.
  - apply (non_directory_never_descends [Demo.P1; Demo.P2]
             [Demo.Q2; Demo.Q1] "notes.txt" "/t/notes.txt" Demo.file []).
    discriminate.
Defined.

(** ** Orchestration *)

Section OrchestratorFacts.

Context {W excludePatternOptions includePatternOptions : Type}.
Context {Repository Snapshot ID : Type}.

Variable ext : Externals W excludePatternOptions includePatternOptions
                 Repository Snapshot ID.

Local Abbreviation RestoreOptions :=
  (RestoreOptions excludePatternOptions includePatternOptions).

Implicit Types (opts : RestoreOptions) (gopts : GlobalOptions).
Implicit Types (args : list string) (w : W) (s : State W).

(** *** The error aggregator *)

Lemma Error_callback_eq location err s :
  Error_callback ext location err s
  = (None,
     mkState (world s) (GoInt.incr (totalErrors s))
       (events s
        ++ [EvMsgE ("ignoring error for " ++ location ++ ": "
                    ++ Error_string ext err ++ Fmt.nl)])).
Proof. reflexivity. Qed.

Lemma Warn_callback_eq message s :
  Warn_callback message s
  = (tt, logged (EvMsgE ("Warning: " ++ message ++ Fmt.nl)) s).
Proof. reflexivity. Qed.

(** C8: the per-item error callback returns [nil] for every location and
    cause, forwards one diagnostic line and performs [totalErrors++],
    which adds exactly one below the largest [int]; the warning callback
    forwards one diagnostic line and leaves the counter as it is. *)
Theorem error_callback_counts_and_continues
    (location : string) (err : error) (message : string) s :
  Error_callback ext location err s
  = (None,
     mkState (world s) (GoInt.incr (totalErrors s))
       (events s
        ++ [EvMsgE ("ignoring error for " ++ location ++ ": "
                    ++ Error_string ext err ++ Fmt.nl)]))
  /\ (GoInt.MinInt <= totalErrors s < GoInt.MaxInt ->
      totalErrors (snd (Error_callback ext location err s))
      = totalErrors s + 1)
  /\ Warn_callback message s
     = (tt,
        mkState (world s) (totalErrors s)
          (events s ++ [EvMsgE ("Warning: " ++ message ++ Fmt.nl)])).
Proof.
  split; [reflexivity | split; [| reflexivity]].
  intros Hrange. rewrite Error_callback_eq. cbn [snd totalErrors].
  now apply incr_below_max.
Qed.

(** *** Pattern compilation and validation *)

(** C10: pattern compilation comes before every check on the arguments: an
    error of the exclude compilation, or of the include compilation after
    a successful exclude compilation, is what [runRestore] returns,
    whatever the arguments, the target and the filter groups are; nothing
    else has been called by then. *)
Theorem pattern_errors_come_first opts gopts args s (e : error) :
  (forall w1,
      CollectExcludePatterns ext (excludeOpts opts) (world s)
      = (Err e, w1) ->
      runRestore ext opts gopts args s = (Some e, set_world w1 s))
  /\ (forall fns w1 w2,
      CollectExcludePatterns ext (excludeOpts opts) (world s)
      = (Ok fns, w1) ->
      CollectIncludePatterns ext (includeOpts opts) w1 = (Err e, w2) ->
      runRestore ext opts gopts args s = (Some e, set_world w2 s)).
Proof.
  split.
  - intros w1 Hexcl.
    unfold runRestore, returned, bindE, on_world. cbv zeta.
    rewrite Hexcl. reflexivity.
  - intros fns w1 w2 Hexcl Hincl.
    unfold runRestore, returned, bindE, on_world. cbv zeta.
    rewrite Hexcl. cbn [world set_world]. rewrite Hincl. reflexivity.
Qed.





(** *** The restorer against the installed callbacks *)

(** The installed select filter works on the world only. *)
Lemma installed_select_quiet opts exFns inFns item dstpath node s :
  let s' := snd (res_SelectFilter (installed_restorer ext opts exFns inFns)
                   item dstpath node s) in
  totalErrors s' = totalErrors s /\ events s' = events s.
Proof.
  unfold installed_restorer. cbn [res_SelectFilter].
  destruct (hasExcludes ext opts); [|destruct (hasIncludes ext opts)].
  - unfold on_world.
    destruct (selectExcludeFilter exFns item dstpath node (world s)).
    split; reflexivity.
  - unfold on_world.
    destruct (selectIncludeFilter inFns item dstpath node (world s)).
    split; reflexivity.
  - unfold default_SelectFilter, on_world.
    destruct (NewRestorer_SelectFilter ext item dstpath node (world s)).
    split; reflexivity.
Qed.

Lemma error_reports_nonneg {R} (res : Restorer W) (e : Engine W R) s :
  0 <= error_reports res e s.
Proof.
  revert s. induction e as [r|location err k IH|message k IH
                            |item dstpath node k IH|f k IH]; intros s;
    cbn [error_reports].
  - lia.
  - destruct (res_Error res location err s) as [d s']. specialize (IH d s').
    lia.
  - destruct (res_Warn res message s) as [u s']. apply IH.
  - destruct (res_SelectFilter res item dstpath node s) as [d s']. apply IH.
  - apply IH.
Qed.

(** A run of the restorer adds its error reports to [totalErrors] and puts
    nothing but diagnostic lines on record. *)
Lemma run_installed {R} opts exFns inFns (e : Engine W R) s :
  let res := installed_restorer ext opts exFns inFns in
  let s' := snd (run_engine res e s) in
  (0 <= totalErrors s ->
   totalErrors s + error_reports res e s <= GoInt.MaxInt ->
   totalErrors s' = totalErrors s + error_reports res e s)
  /\ exists lines : list string,
       events s' = (events s ++ map EvMsgE lines)%list.
Proof.
  cbv zeta. revert s.
  induction e as [r|location err k IH|message k IH
                  |item dstpath node k IH|f k IH]; intros s;
    cbn [run_engine error_reports].
  - split.
    + intros _ _. cbn [snd ret]. unfold ret. cbn [snd]. lia.
    + exists []. unfold ret. cbn [snd map]. now rewrite app_nil_r.
  - cbn [res_Error installed_restorer]. rewrite Error_callback_eq.
    match goal with
    | |- context [run_engine _ (k None) ?st] => set (s1 := st)
    end.
    destruct (IH None s1) as [IHcount [lines IHev]].
    pose proof (error_reports_nonneg
                  (installed_restorer ext opts exFns inFns) (k None) s1)
      as Hnn.
    split.
    + intros Hpos Hmax.
      assert (Hincr : totalErrors s1 = totalErrors s + 1).
      { subst s1. cbn [totalErrors]. apply incr_below_max.
        pose proof MinInt_neg. lia. }
      rewrite IHcount; lia.
    + eexists (_ :: lines). rewrite IHev. subst s1. cbn [events map].
      rewrite <- app_assoc. reflexivity.
  - cbn [res_Warn installed_restorer]. rewrite Warn_callback_eq.
    match goal with
    | |- context [run_engine _ k ?st] => set (s1 := st)
    end.
    destruct (IH s1) as [IHcount [lines IHev]].
    split.
    + intros Hpos Hmax. now apply IHcount.
    + eexists (_ :: lines). rewrite IHev. subst s1.
      unfold logged. cbn [events map]. rewrite <- app_assoc. reflexivity.
  - pose proof (installed_select_quiet opts exFns inFns item dstpath node s)
      as Hquiet. cbv zeta in Hquiet.
    destruct (res_SelectFilter (installed_restorer ext opts exFns inFns)
                item dstpath node s) as [d s1].
    cbn [snd] in Hquiet. destruct Hquiet as [Hcount Hev].
    destruct (IH d s1) as [IHcount [lines IHev]].
    rewrite <- Hcount, <- Hev. split.
    + exact IHcount.
    + now exists lines.
  - match goal with
    | |- context [run_engine _ (k ?w1) ?st] =>
        destruct (IH w1 st) as [IHcount [lines IHev]]
    end.
    split.
    + exact IHcount.
    + now exists lines.
Qed.

Lemma no_VerifyFiles_in_lines (lines : list string) :
  existsb is_VerifyFiles (map EvMsgE lines) = false.
Proof. induction lines as [|l lines IH]; [reflexivity | exact IH]. Qed.


(** *** From the start of the run to the error gates *)

Ltac run_monad :=
  cbv beta iota zeta
      delta [runRestore returned bindE liftE check on_world emit modify gets
             ok fail defer when msg_P msg_E bind ret logged set_world
             set_totalErrors world totalErrors events start fst snd negb].

(** A run that gets as far as [RestoreTo] ends as the restorer and the gates
    behind it decide, with the deferred [unlock()] last. *)
Lemma runRestore_from_restore opts gopts args w res repo sn s0 :
  restore_starts ext opts gopts args w res repo sn s0 ->
  runRestore ext opts gopts args (start w)
  = match run_engine res
            (RestoreTo_engine ext repo sn (Sparse opts) (Target opts)) s0 with
    | (Some err, s1) => (Some err, unlocked ext repo s1)
    | (None, s1) =>
        let (r, s2) := returned (gate_and_verify ext opts gopts res repo sn)
                         (logged EvProgressFinish s1) in
        (r, unlocked ext repo s2)
    end.
Proof.
  intros [exFns inFns w1 w2 w3 w4 w5 w6 id subfolder sn0 tree
          Hexcl Hincl Hargs Htarget Hmode Hopen Hfind Hindex Htree
          Hres Hsn Hs0].
  apply String.eqb_neq in Htarget.
  unfold runRestore. run_monad.
  rewrite Hexcl. run_monad. rewrite Hincl. run_monad.
  subst args.
  change (len [id] =? 0) with false. change (1 <? len [id]) with false.
  run_monad. rewrite Htarget. run_monad. rewrite Hmode. run_monad.
  rewrite Hopen. run_monad. cbn [nth]. rewrite Hfind. run_monad.
  rewrite Hindex. run_monad. rewrite Htree. run_monad.
  subst res sn s0. unfold events_until_restore, unlocked.
  destruct (JSON gopts); cbn [app]; run_monad.
  - destruct (run_engine _ _ _) as [[err|] s1]; run_monad.
    + destruct (unlock ext repo _) as [u wf]. reflexivity.
    + destruct (gate_and_verify _ _ _ _ _ _ _) as [[u|e] s2];
        destruct (unlock ext repo _) as [u' wf]; reflexivity.
  - destruct (run_engine _ _ _) as [[err|] s1]; run_monad.
    + destruct (unlock ext repo _) as [u wf]. reflexivity.
    + destruct (gate_and_verify _ _ _ _ _ _ _) as [[u|e] s2];
        destruct (unlock ext repo _) as [u' wf]; reflexivity.
Qed.

(** The first gate, line 195. *)
Lemma gate_closed opts gopts res repo sn s :
  0 < totalErrors s ->
  gate_and_verify ext opts gopts res repo sn s
  = (Err (Fatalf_errors (totalErrors s)), s).
Proof.
  intros Hpos. apply Z.ltb_lt in Hpos.
  unfold gate_and_verify, bindE at 1, liftE at 1, gets at 1.
  rewrite Hpos. reflexivity.
Qed.

Lemma gate_open_no_verify opts gopts res repo sn s :
  totalErrors s <= 0 -> Verify opts = false ->
  gate_and_verify ext opts gopts res repo sn s = (Ok tt, s).
Proof.
  intros Hzero Hverify. apply Z.ltb_ge in Hzero.
  unfold gate_and_verify, bindE at 1, liftE at 1, gets at 1.
  rewrite Hzero, Hverify. reflexivity.
Qed.

(** Behind the first gate with [--verify]: lines 199-217. *)
Lemma gate_open_verify opts gopts res repo sn s1 :
  totalErrors s1 <= 0 -> Verify opts = true ->
  gate_and_verify ext opts gopts res repo sn (logged EvProgressFinish s1)
  = match run_engine res
            (VerifyFiles_engine ext repo sn (Sparse opts) (Target opts))
            (verify_entry opts gopts s1) with
    | (_, Some err, s2) => (Err err, s2)
    | (count, None, s2) =>
        if 0 <? totalErrors s2 then (Err (Fatalf_errors (totalErrors s2)), s2)
        else if JSON gopts then (Ok tt, s2)
        else (Ok tt,
              logged (EvMsgP (finished_line ext opts count
                                (Now ext (world s1)) s2)) s2)
    end.
Proof.
  intros Hzero Hverify. apply Z.ltb_ge in Hzero.
  unfold gate_and_verify, bindE at 1, liftE at 1, gets at 1.
  cbn [totalErrors logged]. rewrite Hzero, Hverify.
  unfold verify_entry, finished_line.
  destruct (JSON gopts); run_monad;
    destruct (run_engine _ _ _) as [[count [err|]] s2]; run_monad;
    try reflexivity;
    match goal with
    | |- context [if ?c then _ else _] => destruct c
    end; reflexivity.
Qed.


Lemma no_VerifyFiles_until_restore opts gopts id subfolder sn :
  existsb is_VerifyFiles
    (events_until_restore ext opts gopts id subfolder sn) = false.
Proof.
  unfold events_until_restore. destruct (JSON gopts); reflexivity.
Qed.

(** What a completed restore leaves behind: the counter holds the number of
    reports, and [VerifyFiles] has not been called. *)
Lemma restore_completes_state opts gopts args w res repo sn n s1 :
  restore_completes ext opts gopts args w res repo sn n s1 ->
  n <= GoInt.MaxInt ->
  totalErrors s1 = n /\ 0 <= n
  /\ existsb is_VerifyFiles (events s1) = false
  /\ runRestore ext opts gopts args (start w)
     = (let (r, s2) := returned (gate_and_verify ext opts gopts res repo sn)
                         (logged EvProgressFinish s1) in
        (r, unlocked ext repo s2)).
Proof.
  intros (s0 & Hstart & Hrun & Hn) Hmax.
  pose proof (runRestore_from_restore _ _ _ _ _ _ _ _ Hstart) as Hfrom.
  rewrite Hrun in Hfrom.
  destruct Hstart as [exFns inFns w1 w2 w3 w4 w5 w6 id subfolder sn0 tree
          Hexcl Hincl Hargs Htarget Hmode Hopen Hfind Hindex Htree
          Hres Hsn Hs0].
  pose proof (run_installed opts exFns inFns
                (RestoreTo_engine ext repo sn (Sparse opts) (Target opts))
                s0) as Hinst.
  cbv zeta in Hinst. rewrite <- Hres, Hrun, <- Hn in Hinst.
  cbn [snd] in Hinst. destruct Hinst as [Hcount [lines Hev]].
  assert (Hnn : 0 <= n).
  { rewrite Hn. apply error_reports_nonneg. }
  assert (Hzero : totalErrors s0 = 0) by (rewrite Hs0; reflexivity).
  rewrite Hzero in Hcount.
  repeat split.
  - rewrite Hcount; lia.
  - exact Hnn.
  - rewrite Hev, existsb_app, no_VerifyFiles_in_lines, Hs0.
    cbn [events]. rewrite no_VerifyFiles_until_restore. reflexivity.
  - exact Hfrom.
Qed.

(** C3: when [RestoreTo] has returned and the error count is not zero, the
    command ends with the fatal error "There were N errors" and a line
    feed, N being the count printed in decimal, and [VerifyFiles] is never
    called, with or without [--verify];
    a call of [VerifyFiles] on record means the count after the restore was
    zero.  (The count is the number of reports, which fits an [int].) *)
Theorem errors_after_restore_skip_verify
    opts gopts args w res repo sn (n : Z) (s1 : State W) :
  restore_completes ext opts gopts args w res repo sn n s1 ->
  n <= GoInt.MaxInt ->
  totalErrors s1 = n
  /\ (totalErrors s1 <> 0 ->
      runRestore ext opts gopts args (start w)
      = (Some (Fatal ("There were " ++ Fmt.d n ++ " errors" ++ Fmt.nl)),
         unlocked ext repo (logged EvProgressFinish s1))
      /\ existsb is_VerifyFiles
           (events (snd (runRestore ext opts gopts args (start w)))) = false)
  /\ (existsb is_VerifyFiles
        (events (snd (runRestore ext opts gopts args (start w)))) = true ->
      totalErrors s1 = 0).
Proof.
  intros Hcompletes Hmax.
  destruct (restore_completes_state _ _ _ _ _ _ _ _ _ Hcompletes Hmax)
    as (Hcount & Hnn & Hquiet & Hrun).
  assert (Hfatal : totalErrors s1 <> 0 ->
    runRestore ext opts gopts args (start w)
    = (Some (Fatal ("There were " ++ Fmt.d n ++ " errors" ++ Fmt.nl)),
       unlocked ext repo (logged EvProgressFinish s1))).
  { intros Hnz. rewrite Hrun. unfold returned.
    rewrite gate_closed by (cbn [totalErrors logged]; lia).
    cbn [totalErrors logged]. now rewrite Hcount. }
  assert (Hskip : totalErrors s1 <> 0 ->
    existsb is_VerifyFiles
      (events (snd (runRestore ext opts gopts args (start w)))) = false).
  { intros Hnz. rewrite (Hfatal Hnz). cbn [snd unlocked logged events].
    rewrite !existsb_app, Hquiet. reflexivity. }
  split; [exact Hcount|]. split.
  - intros Hnz. split; [now apply Hfatal | now apply Hskip].
  - intros Hverify. destruct (Z.eq_dec (totalErrors s1) 0) as [Hz|Hnz].
    + exact Hz.
    + rewrite (Hskip Hnz) in Hverify. discriminate.
Qed.

(** C7, amended: the verification runs with the restorer of the restore
    phase, hence with the same [res.Error] and the same counter: its reports
    are added to [totalErrors].  When [VerifyFiles] has returned without an
    error of its own, a count that is not zero ends the command with the
    fatal error "There were N errors" and a line feed, N being the count
    printed in decimal; a zero count ends it with success,
    and the line with the number of files verified and the time taken is
    printed unless the output is JSON. *)
Theorem verify_shares_error_counter
    opts gopts args w res repo sn (s1 s2 : State W) (count m : Z) :
  restore_completes ext opts gopts args w res repo sn 0 s1 ->
  Verify opts = true ->
  run_engine res
    (VerifyFiles_engine ext repo sn (Sparse opts) (Target opts))
    (verify_entry opts gopts s1) = ((count, None), s2) ->
  m = error_reports res
        (VerifyFiles_engine ext repo sn (Sparse opts) (Target opts))
        (verify_entry opts gopts s1) ->
  m <= GoInt.MaxInt ->
  totalErrors s2 = totalErrors s1 + m
  /\ (totalErrors s2 <> 0 ->
      runRestore ext opts gopts args (start w)
      = (Some (Fatal ("There were " ++ Fmt.d (totalErrors s2) ++ " errors"
                      ++ Fmt.nl)),
         unlocked ext repo s2))
  /\ (totalErrors s2 = 0 ->
      runRestore ext opts gopts args (start w)
      = (None,
         unlocked ext repo
           (if JSON gopts then s2
            else logged (EvMsgP (finished_line ext opts count
                                   (Now ext (world s1)) s2)) s2))).
Proof.
  intros Hcompletes Hverify Hrun Hm Hmax.
  destruct (restore_completes_state _ _ _ _ _ _ _ _ _ Hcompletes
              ltac:(pose proof MaxInt_pos; lia))
    as (Hcount & _ & _ & Hfrom).
  assert (Hres : exists exFns inFns,
             res = installed_restorer ext opts exFns inFns).
  { destruct Hcompletes as (s0 & [] & _). eauto. }
  destruct Hres as (exFns & inFns & Hres).
  pose proof (run_installed opts exFns inFns
                (VerifyFiles_engine ext repo sn (Sparse opts) (Target opts))
                (verify_entry opts gopts s1)) as Hinst.
  cbv zeta in Hinst. rewrite <- Hres, Hrun, <- Hm in Hinst.
  cbn [snd] in Hinst. destruct Hinst as [Hsum _].
  assert (Hentry : totalErrors (verify_entry opts gopts s1) = totalErrors s1).
  { unfold verify_entry. destruct (JSON gopts); reflexivity. }
  rewrite Hentry, Hcount in Hsum.
  assert (Hnn : 0 <= m) by (rewrite Hm; apply error_reports_nonneg).
  specialize (Hsum ltac:(lia) ltac:(lia)).
  rewrite Hfrom. unfold returned.
  rewrite gate_open_verify by (assumption || lia). rewrite Hrun.
  split; [lia|]. split.
  - intros Hnz. assert (Hpos : (0 <? totalErrors s2) = true)
      by (apply Z.ltb_lt; lia).
    rewrite Hpos. reflexivity.
  - intros Hz. rewrite Hz. cbn [Z.ltb Z.compare].
    destruct (JSON gopts); reflexivity.
Qed.


(** *** Failures between validation and the restore *)

Ltac pass_checks H :=
  let w1 := fresh "w1" in
  let Hexcl := fresh "Hexcl" in
  let Hincl := fresh "Hincl" in
  let Hargs := fresh "Hargs" in
  let Htarget := fresh "Htarget" in
  let Hmode := fresh "Hmode" in
  destruct H as [w1 Hexcl Hincl Hargs Htarget Hmode];
  apply String.eqb_neq in Htarget;
  unfold runRestore; run_monad;
  rewrite Hexcl; run_monad; rewrite Hincl; run_monad;
  subst;
  match goal with
  | |- context [len [?x] =? 0] =>
      change (len [x] =? 0) with false; change (1 <? len [x]) with false
  end;
  run_monad; rewrite Htarget; run_monad; rewrite Hmode; run_monad;
  cbn [nth app].

(** X1: Lines 105-108: an error of [openWithReadLock] is returned as it is;
    only the debug line and the call itself are on record, and no [unlock()]
    runs, since none has been deferred yet. *)
Theorem open_failure_returned
    opts gopts args w exFns inFns (id : string) (w2 w3 : W) (e : error) :
  validated ext opts args w exFns inFns id w2 ->
  openWithReadLock ext gopts (NoLock gopts) w2 = (Err e, w3) ->
  runRestore ext opts gopts args (start w)
  = (Some e, mkState w3 0 (events_until_open opts id)).
Proof.
  intros Hvalid Hopen. pass_checks Hvalid.
  rewrite Hopen. reflexivity.
Qed.

(** X2: Lines 111-118: an error of [FindLatest] is wrapped into the fatal
    error "failed to find snapshot: <cause>", the cause being what
    [err.Error()] prints for it; the index is not loaded, nothing is
    restored, and the repository is unlocked. *)
Theorem find_failure_is_fatal
    opts gopts args w exFns inFns (id : string) (w2 w3 w4 : W)
    (repo : Repository) (e : error) :
  validated ext opts args w exFns inFns id w2 ->
  openWithReadLock ext gopts (NoLock gopts) w2 = (Ok repo, w3) ->
  FindLatest ext (latest_filter opts) repo id w3 = (Err e, w4) ->
  runRestore ext opts gopts args (start w)
  = (Some (Fatal ("failed to find snapshot: " ++ Error_string ext e)),
     released ext repo w4 (events_until_open opts id ++ [EvFindLatest id])).
Proof.
  intros Hvalid Hopen Hfind. unfold latest_filter in Hfind.
  pass_checks Hvalid.
  rewrite Hopen. run_monad. rewrite Hfind. run_monad.
  unfold released. destruct (unlock ext repo w4) as [u wf]. reflexivity.
Qed.

(** X3: Lines 120-124: an error of [LoadIndex] is returned as it is; the
    subtree is not looked up, nothing is restored, and the repository is
    unlocked. *)
Theorem index_failure_returned
    opts gopts args w exFns inFns (id : string) (w2 w3 w4 w5 : W)
    (repo : Repository) (sn0 : Snapshot) (subfolder : string) (e : error) :
  validated ext opts args w exFns inFns id w2 ->
  openWithReadLock ext gopts (NoLock gopts) w2 = (Ok repo, w3) ->
  FindLatest ext (latest_filter opts) repo id w3 = (Ok (sn0, subfolder), w4) ->
  LoadIndex ext repo w4 = (Some e, w5) ->
  runRestore ext opts gopts args (start w)
  = (Some e,
     released ext repo w5
       (events_until_open opts id ++ [EvFindLatest id; EvLoadIndex])).
Proof.
  intros Hvalid Hopen Hfind Hindex. unfold latest_filter in Hfind.
  pass_checks Hvalid.
  rewrite Hopen. run_monad. rewrite Hfind. run_monad.
  rewrite Hindex. run_monad.
  unfold released. destruct (unlock ext repo w5) as [u wf]. reflexivity.
Qed.

(** X4: Lines 126-129: an error of [FindTreeDirectory] is returned as it is;
    [RestoreTo] is not called, and the repository is unlocked. *)
Theorem subtree_failure_returned
    opts gopts args w exFns inFns (id : string) (w2 w3 w4 w5 w6 : W)
    (repo : Repository) (sn0 : Snapshot) (subfolder : string) (e : error) :
  validated ext opts args w exFns inFns id w2 ->
  openWithReadLock ext gopts (NoLock gopts) w2 = (Ok repo, w3) ->
  FindLatest ext (latest_filter opts) repo id w3 = (Ok (sn0, subfolder), w4) ->
  LoadIndex ext repo w4 = (None, w5) ->
  FindTreeDirectory ext repo (Tree ext sn0) subfolder w5 = (Err e, w6) ->
  runRestore ext opts gopts args (start w)
  = (Some e,
     released ext repo w6
       (events_until_open opts id
        ++ [EvFindLatest id; EvLoadIndex; EvFindTreeDirectory subfolder])).
Proof.
  intros Hvalid Hopen Hfind Hindex Htree. unfold latest_filter in Hfind.
  pass_checks Hvalid.
  rewrite Hopen. run_monad. rewrite Hfind. run_monad.
  rewrite Hindex. run_monad. rewrite Htree. run_monad.
  unfold released. destruct (unlock ext repo w6) as [u wf]. reflexivity.
Qed.


(** *** The restore and the verification themselves *)

Lemma calls_app (xs ys : list Event) :
  calls (xs ++ ys) = (calls xs ++ calls ys)%list.
Proof. apply flat_map_app. Qed.

Lemma calls_lines (lines : list string) : calls (map EvMsgE lines) = [].
Proof. induction lines as [|l lines IH]; [reflexivity | exact IH]. Qed.

Lemma calls_until_restore opts gopts id subfolder sn :
  calls (events_until_restore ext opts gopts id subfolder sn)
  = firstn 5 pipeline.
Proof.
  unfold events_until_restore. destruct (JSON gopts); reflexivity.
Qed.

(** X5: Lines 188-191: an error returned by [RestoreTo] is what the command
    returns, whatever the error count is by then: there is no summary error,
    [progress.Finish] and [VerifyFiles] are not called, and the repository
    is unlocked. *)
Theorem restore_failure_returned
    opts gopts args w res repo sn (s0 s1 : State W) (err : error) :
  restore_starts ext opts gopts args w res repo sn s0 ->
  run_engine res
    (RestoreTo_engine ext repo sn (Sparse opts) (Target opts)) s0
  = (Some err, s1) ->
  runRestore ext opts gopts args (start w)
  = (Some err, unlocked ext repo s1)
  /\ calls (events (unlocked ext repo s1))
     = [COpen; CFindLatest; CLoadIndex; CFindTreeDirectory; CRestoreTo;
        CUnlock].
Proof.
  intros Hstart Hrun. split.
  - rewrite (runRestore_from_restore _ _ _ _ _ _ _ _ Hstart), Hrun.
    reflexivity.
  - destruct Hstart as [exFns inFns w1 w2 w3 w4 w5 w6 id subfolder sn0 tree
          Hexcl Hincl Hargs Htarget Hmode Hopen Hfind Hindex Htree
          Hres Hsn Hs0].
    pose proof (run_installed opts exFns inFns
                  (RestoreTo_engine ext repo sn (Sparse opts) (Target opts))
                  s0) as Hinst.
    cbv zeta in Hinst. rewrite <- Hres, Hrun in Hinst. cbn [snd] in Hinst.
    destruct Hinst as [_ [lines Hev]].
    unfold unlocked. cbn [events]. rewrite Hev, Hs0. cbn [events].
    rewrite !calls_app, calls_lines, calls_until_restore. reflexivity.
Qed.

(** X6: Lines 205-208: an error returned by [VerifyFiles] is what the command
    returns, whatever the error count is by then; no summary error and no
    closing line are produced. *)
Theorem verify_failure_returned
    opts gopts args w res repo sn (s1 s2 : State W) (count : Z)
    (err : error) :
  restore_completes ext opts gopts args w res repo sn 0 s1 ->
  Verify opts = true ->
  run_engine res
    (VerifyFiles_engine ext repo sn (Sparse opts) (Target opts))
    (verify_entry opts gopts s1) = ((count, Some err), s2) ->
  runRestore ext opts gopts args (start w)
  = (Some err, unlocked ext repo s2).
Proof.
  intros Hcompletes Hverify Hrun.
  destruct (restore_completes_state _ _ _ _ _ _ _ _ _ Hcompletes
              ltac:(pose proof MaxInt_pos; lia))
    as (Hcount & _ & _ & Hfrom).
  rewrite Hfrom. unfold returned.
  rewrite gate_open_verify by (assumption || lia). rewrite Hrun.
  reflexivity.
Qed.

(** X7: Lines 195-219 without [--verify]: a restore that reported no error ends
    the command with [nil]; [VerifyFiles] is not called, and the calls made
    are exactly those up to [progress.Finish], then [unlock()]. *)
Theorem clean_restore_succeeds
    opts gopts args w res repo sn (s1 : State W) :
  restore_completes ext opts gopts args w res repo sn 0 s1 ->
  Verify opts = false ->
  runRestore ext opts gopts args (start w)
  = (None, unlocked ext repo (logged EvProgressFinish s1))
  /\ calls (events (unlocked ext repo (logged EvProgressFinish s1)))
     = [COpen; CFindLatest; CLoadIndex; CFindTreeDirectory; CRestoreTo;
        CProgressFinish; CUnlock].
Proof.
  intros Hcompletes Hverify.
  destruct (restore_completes_state _ _ _ _ _ _ _ _ _ Hcompletes
              ltac:(pose proof MaxInt_pos; lia))
    as (Hcount & _ & _ & Hfrom).
  split.
  - rewrite Hfrom. unfold returned.
    rewrite gate_open_no_verify
      by (assumption || (cbn [totalErrors logged]; lia)).
    reflexivity.
  - destruct Hcompletes as (s0 & Hstart & Hrun & _).
    destruct Hstart as [exFns inFns w1 w2 w3 w4 w5 w6 id subfolder sn0 tree
          Hexcl Hincl Hargs Htarget Hmode Hopen Hfind Hindex Htree
          Hres Hsn Hs0].
    pose proof (run_installed opts exFns inFns
                  (RestoreTo_engine ext repo sn (Sparse opts) (Target opts))
                  s0) as Hinst.
    cbv zeta in Hinst. rewrite <- Hres, Hrun in Hinst. cbn [snd] in Hinst.
    destruct Hinst as [_ [lines Hev]].
    unfold unlocked, logged. cbn [events]. rewrite Hev, Hs0. cbn [events].
    rewrite !calls_app, calls_lines, calls_until_restore. reflexivity.
Qed.



(** *** Every run *)

Lemma no_MsgP_in_lines (lines : list string) :
  existsb is_MsgP (map EvMsgE lines) = false.
Proof. induction lines as [|l lines IH]; [reflexivity | exact IH]. Qed.

Lemma no_MsgP_until_restore opts gopts id subfolder sn :
  JSON gopts = true ->
  existsb is_MsgP (events_until_restore ext opts gopts id subfolder sn)
  = false.
Proof. intros Hjson. unfold events_until_restore. now rewrite Hjson. Qed.

Ltac shape_none :=
  split; [now left | split; [reflexivity | split; [cbn; lia | discriminate]]].

Ltac shape_open :=
  split;
  [right; now left | split; [reflexivity | split; [cbn; lia | discriminate]]].

Ltac shape_at k :=
  split; [right; right; exists k; split; [lia|] | split; [|split]].

Lemma run_shape opts gopts args w :
  run_shape_of opts gopts (runRestore ext opts gopts args (start w)).
Proof.
  destruct (CollectExcludePatterns ext (excludeOpts opts) w)
    as [[exFns|e] w1] eqn:Hexcl.
  2:{ unfold runRestore; run_monad; rewrite Hexcl; run_monad.
      shape_none. }
  destruct (CollectIncludePatterns ext (includeOpts opts) w1)
    as [[inFns|e] w2] eqn:Hincl.
  2:{ unfold runRestore; run_monad; rewrite Hexcl; run_monad;
        rewrite Hincl; run_monad.
      shape_none. }
  assert (Hinvalid : forall e : error,
    (if len args =? 0 then Some (Fatal "no snapshot ID specified")
     else if 1 <? len args then
       Some (Fatal ("more than one snapshot ID specified: "
                    ++ Fmt.v_strings args))
     else if (Target opts =? EmptyString)%string then
       Some (Fatal "please specify a directory to restore to (--target)")
     else if hasExcludes ext opts && hasIncludes ext opts then
       Some (Fatal "exclude and include patterns are mutually exclusive")
     else None) = Some e ->
    run_shape_of opts gopts (runRestore ext opts gopts args (start w))).
  { intros e He. unfold runRestore; run_monad; rewrite Hexcl; run_monad;
      rewrite Hincl; run_monad.
    destruct (len args =? 0); run_monad;
      [shape_none|].
    destruct (1 <? len args); run_monad;
      [shape_none|].
    destruct (Target opts =? EmptyString)%string; run_monad;
      [shape_none|].
    destruct (hasExcludes ext opts && hasIncludes ext opts); run_monad;
      [shape_none|].
    discriminate. }
  destruct args as [|id [|id' args]].
  { eapply Hinvalid. reflexivity. }
  2:{ eapply Hinvalid.
      replace (len (id :: id' :: args) =? 0) with false
        by (symmetry; apply Z.eqb_neq; unfold len; cbn [List.length]; lia).
      replace (1 <? len (id :: id' :: args)) with true
        by (symmetry; apply Z.ltb_lt; unfold len; cbn [List.length]; lia).
      reflexivity. }
  destruct (Target opts =? EmptyString)%string eqn:Htarget.
  { eapply Hinvalid. change (len [id] =? 0) with false.
    change (1 <? len [id]) with false. reflexivity. }
  destruct (hasExcludes ext opts && hasIncludes ext opts) eqn:Hmode.
  { eapply Hinvalid. change (len [id] =? 0) with false.
    change (1 <? len [id]) with false. reflexivity. }
  clear Hinvalid.
  assert (Hvalid : validated ext opts [id] w exFns inFns id w2).
  { apply String.eqb_neq in Htarget. econstructor; eauto. }
  destruct (openWithReadLock ext gopts (NoLock gopts) w2)
    as [[repo|e] w3] eqn:Hopen.
  2:{ pass_checks Hvalid. rewrite Hopen. run_monad.
      shape_open. }
  destruct (FindLatest ext (latest_filter opts) repo id w3)
    as [[[sn0 subfolder]|e] w4] eqn:Hfind; unfold latest_filter in Hfind.
  2:{ pass_checks Hvalid. rewrite Hopen. run_monad. rewrite Hfind. run_monad.
      destruct (unlock ext repo w4) as [u wf].
      shape_at 2%nat;
      [reflexivity | reflexivity | cbn; lia | discriminate]. }
  destruct (LoadIndex ext repo w4) as [[e|] w5] eqn:Hindex.
  { pass_checks Hvalid. rewrite Hopen. run_monad. rewrite Hfind. run_monad.
    rewrite Hindex. run_monad.
    destruct (unlock ext repo w5) as [u wf].
    shape_at 3%nat;
      [reflexivity | reflexivity | cbn; lia | discriminate]. }
  destruct (FindTreeDirectory ext repo (Tree ext sn0) subfolder w5)
    as [[tree|e] w6] eqn:Htree.
  2:{ pass_checks Hvalid. rewrite Hopen. run_monad. rewrite Hfind. run_monad.
      rewrite Hindex. run_monad. rewrite Htree. run_monad.
      destruct (unlock ext repo w6) as [u wf].
      shape_at 4%nat;
      [reflexivity | reflexivity | cbn; lia | discriminate]. }
  assert (Hstart : restore_starts ext opts gopts [id] w
            (installed_restorer ext opts exFns inFns) repo
            (set_Tree ext sn0 tree)
            (mkState w6 0
               (events_until_restore ext opts gopts id subfolder
                  (set_Tree ext sn0 tree)))).
  { apply String.eqb_neq in Htarget. econstructor; eauto. }
  rewrite (runRestore_from_restore _ _ _ _ _ _ _ _ Hstart).
  clear Hstart Hvalid.
  set (res := installed_restorer ext opts exFns inFns).
  set (sn := set_Tree ext sn0 tree).
  set (s0 := mkState w6 0 _).
  assert (Hcalls0 : calls (events s0) = firstn 5 pipeline)
    by apply calls_until_restore.
  assert (Hquiet0 : JSON gopts = true -> existsb is_MsgP (events s0) = false)
    by apply no_MsgP_until_restore.
  clearbody s0.
  destruct (run_installed opts exFns inFns
              (RestoreTo_engine ext repo sn (Sparse opts) (Target opts)) s0)
    as [_ [lines1 Hev1]].
  fold res in Hev1.
  destruct (run_engine res _ s0) as [[err|] s1]; cbn [snd] in Hev1.
  { shape_at 5%nat.
    - unfold unlocked. cbn [snd events].
      rewrite Hev1, !calls_app, calls_lines, Hcalls0. reflexivity.
    - intros Hjson. unfold unlocked. cbn [snd events].
      rewrite Hev1, !existsb_app, no_MsgP_in_lines, (Hquiet0 Hjson).
      reflexivity.
    - intros _. discriminate.
    - discriminate. }
  unfold returned.
  destruct (Z_lt_dec 0 (totalErrors s1)) as [Hpos|Hzero].
  { rewrite gate_closed by exact Hpos.
    shape_at 6%nat.
    - unfold unlocked, logged. cbn [snd events].
      rewrite Hev1, !calls_app, calls_lines, Hcalls0. reflexivity.
    - intros Hjson. unfold unlocked, logged. cbn [snd events].
      rewrite Hev1, !existsb_app, no_MsgP_in_lines, (Hquiet0 Hjson).
      reflexivity.
    - intros _. discriminate.
    - discriminate. }
  destruct (Verify opts) eqn:Hverify.
  2:{ rewrite gate_open_no_verify
        by (assumption || (cbn [totalErrors logged]; lia)).
      shape_at 6%nat.
      - unfold unlocked, logged. cbn [snd events].
        rewrite Hev1, !calls_app, calls_lines, Hcalls0. reflexivity.
      - intros Hjson. unfold unlocked, logged. cbn [snd events].
        rewrite Hev1, !existsb_app, no_MsgP_in_lines, (Hquiet0 Hjson).
        reflexivity.
      - unfold unlocked, logged. cbn [snd totalErrors]. lia.
      - intros _. rewrite Hverify. unfold unlocked, logged.
        cbn [snd events].
        rewrite Hev1, !calls_app, calls_lines, Hcalls0. reflexivity. }
  rewrite gate_open_verify by (assumption || lia).
  destruct (run_installed opts exFns inFns
              (VerifyFiles_engine ext repo sn (Sparse opts) (Target opts))
              (verify_entry opts gopts s1))
    as [_ [lines2 Hev2]].
  fold res in Hev2.
  assert (Hcalls1 : calls (events (verify_entry opts gopts s1))
                    = firstn 7 pipeline).
  { unfold verify_entry, logged. destruct (JSON gopts); cbn [events];
      rewrite Hev1, !calls_app, calls_lines, Hcalls0; reflexivity. }
  assert (Hquiet1 : JSON gopts = true ->
                    existsb is_MsgP (events (verify_entry opts gopts s1))
                    = false).
  { intros Hjson. unfold verify_entry, logged. rewrite Hjson. cbn [events].
    rewrite Hev1, !existsb_app, no_MsgP_in_lines, (Hquiet0 Hjson).
    reflexivity. }
  destruct (run_engine res _ (verify_entry opts gopts s1))
    as [[count [err|]] s2]; cbn [snd] in Hev2.
  { shape_at 7%nat.
    - unfold unlocked. cbn [snd events].
      rewrite Hev2, !calls_app, calls_lines, Hcalls1. reflexivity.
    - intros Hjson. unfold unlocked. cbn [snd events].
      rewrite Hev2, !existsb_app, no_MsgP_in_lines, (Hquiet1 Hjson).
      reflexivity.
    - intros _. discriminate.
    - discriminate. }
  destruct (0 <? totalErrors s2) eqn:Hgate2.
  { shape_at 7%nat.
    - unfold unlocked. cbn [snd events].
      rewrite Hev2, !calls_app, calls_lines, Hcalls1. reflexivity.
    - intros Hjson. unfold unlocked. cbn [snd events].
      rewrite Hev2, !existsb_app, no_MsgP_in_lines, (Hquiet1 Hjson).
      reflexivity.
    - intros _. discriminate.
    - discriminate. }
  apply Z.ltb_ge in Hgate2.
  destruct (JSON gopts) eqn:Hjson.
  - shape_at 7%nat.
    + unfold unlocked. cbn [snd events].
      rewrite Hev2, !calls_app, calls_lines, Hcalls1. reflexivity.
    + intros _. unfold unlocked. cbn [snd events].
      rewrite Hev2, !existsb_app, no_MsgP_in_lines, (Hquiet1 eq_refl).
      reflexivity.
    + unfold unlocked. cbn [snd totalErrors]. lia.
    + intros _. rewrite Hverify. unfold unlocked. cbn [snd events].
      rewrite Hev2, !calls_app, calls_lines, Hcalls1. reflexivity.
  - shape_at 7%nat.
    + unfold unlocked, logged. cbn [snd events].
      rewrite Hev2, !calls_app, calls_lines, Hcalls1. reflexivity.
    + intros Hfalse. congruence.
    + unfold unlocked, logged. cbn [snd totalErrors]. lia.
    + intros _. rewrite Hverify. unfold unlocked, logged. cbn [snd events].
      rewrite Hev2, !calls_app, calls_lines, Hcalls1. reflexivity.
Qed.


(** *** Which runs reach which stage *)

(** A run is refused before any call, or it passes the checks. *)
Lemma refused_or_validated opts gopts args w :
  (exists e w', runRestore ext opts gopts args (start w) = (Some e, start w'))
  \/ (exists exFns inFns id w2, validated ext opts args w exFns inFns id w2).
Proof.
  destruct (CollectExcludePatterns ext (excludeOpts opts) w)
    as [[exFns|e] w1] eqn:Hexcl.
  2:{ left. exists e, w1.
      unfold runRestore; run_monad; rewrite Hexcl; reflexivity. }
  destruct (CollectIncludePatterns ext (includeOpts opts) w1)
    as [[inFns|e] w2] eqn:Hincl.
  2:{ left. exists e, w2.
      unfold runRestore; run_monad; rewrite Hexcl; run_monad;
        rewrite Hincl; reflexivity. }
  destruct (len args =? 0) eqn:Hzero.
  { left. eexists _, w2.
    unfold runRestore; run_monad; rewrite Hexcl; run_monad;
      rewrite Hincl; run_monad. rewrite Hzero. reflexivity. }
  destruct (1 <? len args) eqn:Hmany.
  { left. eexists _, w2.
    unfold runRestore; run_monad; rewrite Hexcl; run_monad;
      rewrite Hincl; run_monad. rewrite Hzero, Hmany. reflexivity. }
  destruct (Target opts =? EmptyString)%string eqn:Htarget.
  { left. eexists _, w2.
    unfold runRestore; run_monad; rewrite Hexcl; run_monad;
      rewrite Hincl; run_monad. rewrite Hzero, Hmany. run_monad.
    rewrite Htarget. reflexivity. }
  destruct (hasExcludes ext opts && hasIncludes ext opts) eqn:Hmode.
  { left. eexists _, w2.
    unfold runRestore; run_monad; rewrite Hexcl; run_monad;
      rewrite Hincl; run_monad. rewrite Hzero, Hmany. run_monad.
    rewrite Htarget. run_monad. rewrite Hmode. reflexivity. }
  right.
  apply Z.eqb_neq in Hzero. apply Z.ltb_ge in Hmany.
  apply String.eqb_neq in Htarget.
  destruct args as [|id [|id' args]]; unfold len in *;
    cbn [List.length] in *; try lia.
  exists exFns, inFns, id, w2. econstructor; eauto.
Qed.

Lemma defer_runs_last {A} (d : M (State W) unit) (body : E (State W) A) s :
  exists r s', defer d body s = (r, snd (d s')).
Proof.
  unfold defer. destruct (body s) as [r s']. exists r, s'.
  destruct (d s') as [u s'']. reflexivity.
Qed.

(** Once the repository is open, the deferred [unlock()] is the last thing
    a run does. *)
Lemma opened_run_unlocks_last
    opts gopts args w exFns inFns id w2 (repo : Repository) w3 :
  validated ext opts args w exFns inFns id w2 ->
  openWithReadLock ext gopts (NoLock gopts) w2 = (Ok repo, w3) ->
  exists r s',
    runRestore ext opts gopts args (start w) = (r, unlocked ext repo s').
Proof.
  intros [w1 Hexcl Hincl Hargs Htarget Hmode] Hopen.
  apply String.eqb_neq in Htarget. subst args.
  unfold runRestore.
  cbv beta iota zeta
      delta [returned bindE liftE on_world emit modify ok fail bind ret
             logged set_world world totalErrors events start].
  rewrite Hexcl. cbv beta iota. rewrite Hincl. cbv beta iota.
  change (len [id] =? 0) with false. change (1 <? len [id]) with false.
  cbv beta iota. rewrite Htarget. cbv beta iota. rewrite Hmode.
  cbv beta iota. rewrite Hopen. cbv beta iota.
  match goal with
  | |- context [defer ?d ?body ?s] =>
      destruct (defer_runs_last d body s) as (r & s' & Hdefer);
      rewrite Hdefer
  end.
  exists (match r with Ok _ => None | Err e => Some e end), s'.
  unfold unlocked.
  destruct (unlock ext repo _) as [u wf]. destruct r; reflexivity.
Qed.

Lemma calls_end_with_unlock (cs : list Call) :
  (cs ++ [CUnlock])%list <> [] /\ (cs ++ [CUnlock])%list <> [COpen].
Proof.
  split.
  - destruct cs; discriminate.
  - destruct cs as [|c [|c' cs]]; discriminate.
Qed.

(** X9: Lines 70-219, for every run: which stages are reached, and in which
    order.  When the patterns do not compile or a check on the arguments
    fails, no collaborator is called.  When the checks pass and
    [openWithReadLock] fails, that call is the only one.  When it succeeds,
    the calls are an initial part of open, [FindLatest], [LoadIndex],
    [FindTreeDirectory], [RestoreTo], [progress.Finish], [VerifyFiles], in
    this order and each at most once, reaching at least [FindLatest], and
    then [unlock()], exactly once and last. *)
Theorem stages_in_order opts gopts args w :
  let called := calls (events (snd (runRestore ext opts gopts args
                                      (start w)))) in
  ((forall exFns inFns id w2,
       ~ validated ext opts args w exFns inFns id w2) ->
   called = [])
  /\ (forall exFns inFns id w2,
        validated ext opts args w exFns inFns id w2 ->
        (forall e w3,
            openWithReadLock ext gopts (NoLock gopts) w2 = (Err e, w3) ->
            called = [COpen])
        /\ (forall repo w3,
              openWithReadLock ext gopts (NoLock gopts) w2 = (Ok repo, w3) ->
              exists k : nat,
                (2 <= k <= 7)%nat
                /\ called = (firstn k pipeline ++ [CUnlock])%list)).
Proof.
  cbv zeta. split; [|intros exFns inFns id w2 Hvalid; split].
  - intros Hrefused.
    destruct (refused_or_validated opts gopts args w)
      as [(e & w' & Hrun) | (exFns & inFns & id & w2 & Hvalid)].
    + rewrite Hrun. reflexivity.
    + destruct (Hrefused _ _ _ _ Hvalid).
  - intros e w3 Hopen. pass_checks Hvalid. rewrite Hopen. reflexivity.
  - intros repo w3 Hopen.
    destruct (opened_run_unlocks_last _ _ _ _ _ _ _ _ _ _ Hvalid Hopen)
      as (r & s' & Hrun).
    destruct (proj1 (run_shape opts gopts args w)) as [Hnone|[Hopen'|Hk]].
    + rewrite Hrun in Hnone. unfold unlocked in Hnone.
      cbn [snd events] in Hnone. rewrite calls_app in Hnone.
      destruct (proj1 (calls_end_with_unlock (calls (events s'))) Hnone).
    + rewrite Hrun in Hopen'. unfold unlocked in Hopen'.
      cbn [snd events] in Hopen'. rewrite calls_app in Hopen'.
      destruct (proj2 (calls_end_with_unlock (calls (events s'))) Hopen').
    + exact Hk.
Qed.

(** X10: Lines 184-186, 200-202, 213-216: with JSON output the command prints
    nothing through [msg.P], on any path. *)
Theorem json_prints_no_line opts gopts args w :
  JSON gopts = true ->
  existsb is_MsgP
    (events (snd (runRestore ext opts gopts args (start w)))) = false.
Proof. exact (proj1 (proj2 (run_shape opts gopts args w))). Qed.

(** X11: Lines 195-197 and 209-211: the command never returns [nil] with a
    positive error count. *)
Theorem positive_count_is_an_error opts gopts args w :
  0 < totalErrors (snd (runRestore ext opts gopts args (start w))) ->
  fst (runRestore ext opts gopts args (start w)) <> None.
Proof. exact (proj1 (proj2 (proj2 (run_shape opts gopts args w)))). Qed.

(** X12: Lines 188-219: the command returns [nil] only after a complete pass:
    every stage up to [progress.Finish] has been called, [VerifyFiles] too
    exactly when [--verify] is set, and [unlock()] comes last. *)
Theorem success_means_complete_pass opts gopts args w :
  fst (runRestore ext opts gopts args (start w)) = None ->
  calls (events (snd (runRestore ext opts gopts args (start w))))
  = if Verify opts then
      [COpen; CFindLatest; CLoadIndex; CFindTreeDirectory; CRestoreTo;
       CProgressFinish; CVerifyFiles; CUnlock]
    else
      [COpen; CFindLatest; CLoadIndex; CFindTreeDirectory; CRestoreTo;
       CProgressFinish; CUnlock].
Proof.
  intros Hnone.
  rewrite (proj2 (proj2 (proj2 (run_shape opts gopts args w))) Hnone).
  destruct (Verify opts); reflexivity.
Qed.

(** X14: Lines 73-74 and 178-182: the option lists alone decide which filter the
    restorer gets.  With an exclude pattern the compiled include predicates
    are out of play, with include patterns only the compiled exclude
    predicates are, and with neither kind of pattern no compiled predicate
    is ever called, whatever [CollectPatterns] returned. *)
Theorem filter_mode_by_option_lists {R : Type} opts
    (exFns exFns' : list (RejectFn W)) (inFns inFns' : list (IncludeFn W))
    (e : Engine W R) s :
  (hasExcludes ext opts = true ->
   run_engine (installed_restorer ext opts exFns inFns) e s
   = run_engine (installed_restorer ext opts exFns inFns') e s)
  /\ (hasExcludes ext opts = false -> hasIncludes ext opts = true ->
      run_engine (installed_restorer ext opts exFns inFns) e s
      = run_engine (installed_restorer ext opts exFns' inFns) e s)
  /\ (hasExcludes ext opts = false -> hasIncludes ext opts = false ->
      run_engine (installed_restorer ext opts exFns inFns) e s
      = run_engine (installed_restorer ext opts exFns' inFns') e s).
Proof.
  unfold installed_restorer. repeat split.
  - intros ->. reflexivity.
  - intros -> ->. reflexivity.
  - intros -> ->. reflexivity.
Qed.

End OrchestratorFacts.

(** ** The statements at work in the concrete setting *)

(** Scenario A: no argument; nothing has been called. *)
Example scenario_A :
  runRestore (Demo.ext Demo.clean_restore Demo.clean_verify)
    (Demo.opts Demo.no_patterns Demo.no_patterns "/tmp/t" false)
    (Demo.gopts false) [] (start [])
  = (Some (Fatal "no snapshot ID specified"), start []).
Proof. reflexivity. Qed.

(** Scenario B: one argument, empty target. *)
Example scenario_B :
  runRestore (Demo.ext Demo.clean_restore Demo.clean_verify)
    (Demo.opts Demo.no_patterns Demo.no_patterns EmptyString false)
    (Demo.gopts false) ["latest"] (start [])
  = (Some (Fatal "please specify a directory to restore to (--target)"),
     start []).
Proof. reflexivity. Qed.

(** Scenario C: both filter groups. *)
Example scenario_C :
  runRestore (Demo.ext Demo.clean_restore Demo.clean_verify)
    (Demo.opts (Demo.mkPatterns ["*.tmp"] []) (Demo.mkPatterns ["*.go"] [])
       "/tmp/t" false)
    (Demo.gopts false) ["latest"] (start [])
  = (Some (Fatal "exclude and include patterns are mutually exclusive"),
     start []).
Proof. reflexivity. Qed.

(** Scenario D: three per-item errors during the restore, no [--verify]. *)
Example scenario_D :
  fst (runRestore (Demo.ext Demo.three_errors Demo.clean_verify)
         (Demo.opts Demo.no_patterns Demo.no_patterns "/tmp/t" false)
         (Demo.gopts false) ["latest"] (start []))
  = Some (Fatal ("There were 3 errors" ++ Fmt.nl)).
Proof. reflexivity. Qed.

(** Scenario E: a clean restore, then one mismatch found by [--verify]. *)
Example scenario_E :
  fst (runRestore (Demo.ext Demo.clean_restore Demo.one_mismatch)
         (Demo.opts Demo.no_patterns Demo.no_patterns "/tmp/t" true)
         (Demo.gopts false) ["latest"] (start []))
  = Some (Fatal ("There were 1 errors" ++ Fmt.nl)).
Proof. reflexivity. Qed.

Lemma errors_after_restore_skip_verify_witness :
  let run :=
    runRestore (Demo.ext Demo.three_errors Demo.clean_verify)
      (Demo.opts Demo.no_patterns Demo.no_patterns "/tmp/t" true)
      (Demo.gopts false) ["latest"] (start []) in
  fst run
  = Some (Fatal (String.append "There were 3 errors"
                   (String (ascii_of_nat 10) EmptyString)))
  /\ existsb is_VerifyFiles (events (snd run)) = false.
Proof.
  cbv zeta.
  edestruct (errors_after_restore_skip_verify
               (Demo.ext Demo.three_errors Demo.clean_verify)
               (Demo.opts Demo.no_patterns Demo.no_patterns "/tmp/t" true)
               (Demo.gopts false) ["latest"] [])
    as (Hcount & Hfatal & _).
  - eexists. split; [|split].
    + econstructor; try reflexivity. discriminate.
    + reflexivity.
    + reflexivity.
  - vm_compute. discriminate.
  - destruct Hfatal as [Hrun Hskip].
    + rewrite Hcount. discriminate.
    + split; [exact (f_equal fst Hrun) | exact Hskip].
Defined.


Lemma error_callback_counts_and_continues_witness :
  GoInt.MinInt <= 0 < GoInt.MaxInt
  /\ totalErrors
       (snd (Error_callback (Demo.ext Demo.clean_restore Demo.clean_verify)
               "/a" (Plain "permission denied")
               (start ([] : Demo.World)))) = 0 + 1.
Proof.
  assert (Hrange : GoInt.MinInt <= 0 < GoInt.MaxInt)
    by (split; [discriminate | reflexivity]).
  split; [exact Hrange|].
  destruct (error_callback_counts_and_continues
              (Demo.ext Demo.clean_restore Demo.clean_verify)
              "/a" (Plain "permission denied") "slow disk"
              (start ([] : Demo.World)))
    as (_ & Hplus & _).
  apply Hplus. exact Hrange.
Defined.

Lemma pattern_errors_come_first_witness :
  runRestore (Demo.ext Demo.clean_restore Demo.clean_verify)
    (Demo.opts (Demo.mkPatterns [EmptyString] [])
       (Demo.mkPatterns ["*.go"] []) EmptyString true)
    (Demo.gopts false) [] (start [])
  = (Some (Fatal "--exclude: invalid pattern(s) provided"), start []).
Proof.
  destruct (pattern_errors_come_first
              (Demo.ext Demo.clean_restore Demo.clean_verify)
              (Demo.opts (Demo.mkPatterns [EmptyString] [])
                 (Demo.mkPatterns ["*.go"] []) EmptyString true)
              (Demo.gopts false) [] (start [])
              (Fatal "--exclude: invalid pattern(s) provided"))
    as [Hexcl _].
  apply (Hexcl []). reflexivity.
Defined.

Lemma verify_shares_error_counter_witness :
  fst (runRestore (Demo.ext Demo.clean_restore Demo.one_mismatch)
         (Demo.opts Demo.no_patterns Demo.no_patterns "/tmp/t" true)
         (Demo.gopts false) ["latest"] (start []))
  = Some (Fatal (String.append "There were 1 errors"
                   (String (ascii_of_nat 10) EmptyString))).
Proof.
  edestruct (verify_shares_error_counter
               (Demo.ext Demo.clean_restore Demo.one_mismatch)
               (Demo.opts Demo.no_patterns Demo.no_patterns "/tmp/t" true)
               (Demo.gopts false) ["latest"] [])
    as (Hsum & Hfatal & _).
  - eexists. split; [|split].
    + econstructor; try reflexivity. discriminate.
    + reflexivity.
    + reflexivity.
  - reflexivity.
  - reflexivity.
  - reflexivity.
  - vm_compute. discriminate.
  - exact (f_equal fst (Hfatal ltac:(discriminate))).
Defined.

(** With JSON output a clean verification ends in success, yet no line is
    printed: neither the time taken nor the number of files verified is
    reported. *)
Lemma verify_success_silent_in_json :
  let run :=
    runRestore (Demo.ext Demo.clean_restore Demo.clean_verify)
      (Demo.opts Demo.no_patterns Demo.no_patterns "/tmp/t" true)
      (Demo.gopts true) ["latest"] (start []) in
  fst run = None
  /\ totalErrors (snd run) = 0
  /\ existsb is_VerifyFiles (events (snd run)) = true
  /\ existsb is_MsgP (events (snd run)) = false.
Proof. repeat split. Qed.

(** ** Failure paths in the concrete setting *)

Lemma open_failure_returned_witness :
  runRestore (Demo.ext_failing Demo.AtOpen)
    (Demo.opts Demo.no_patterns Demo.no_patterns "/tmp/t" false)
    (Demo.gopts false) ["latest"] (start [])
  = (Some (Fatal "unable to open repository"),
     mkState ["open"] 0
       [EvDebugLog "restore latest to /tmp/t"; EvOpenWithReadLock]).
Proof.
  refine (open_failure_returned (Demo.ext_failing Demo.AtOpen)
            (Demo.opts Demo.no_patterns Demo.no_patterns "/tmp/t" false)
            (Demo.gopts false) ["latest"] [] [] [] "latest" [] ["open"]
            (Fatal "unable to open repository") _ _).
  - econstructor; try reflexivity. discriminate.
  - reflexivity.
Defined.

Lemma find_failure_is_fatal_witness :
  runRestore (Demo.ext_failing Demo.AtFindLatest)
    (Demo.opts Demo.no_patterns Demo.no_patterns "/tmp/t" false)
    (Demo.gopts false) ["latest"] (start [])
  = (Some (Fatal "failed to find snapshot: Fatal: no snapshot found"),
     mkState ["open"; "find"; "unlock"] 0
       [EvDebugLog "restore latest to /tmp/t"; EvOpenWithReadLock;
        EvFindLatest "latest"; EvUnlock]).
Proof.
  refine (find_failure_is_fatal (Demo.ext_failing Demo.AtFindLatest)
            (Demo.opts Demo.no_patterns Demo.no_patterns "/tmp/t" false)
            (Demo.gopts false) ["latest"] [] [] [] "latest" [] ["open"]
            ["open"; "find"] tt (Fatal "no snapshot found") _ _ _).
  - econstructor; try reflexivity. discriminate.
  - reflexivity.
  - reflexivity.
Defined.

Lemma index_failure_returned_witness :
  runRestore (Demo.ext_failing Demo.AtLoadIndex)
    (Demo.opts Demo.no_patterns Demo.no_patterns "/tmp/t" false)
    (Demo.gopts false) ["latest"] (start [])
  = (Some (Plain "index unreadable"),
     mkState ["open"; "find"; "index"; "unlock"] 0
       [EvDebugLog "restore latest to /tmp/t"; EvOpenWithReadLock;
        EvFindLatest "latest"; EvLoadIndex; EvUnlock]).
Proof.
  refine (index_failure_returned (Demo.ext_failing Demo.AtLoadIndex)
            (Demo.opts Demo.no_patterns Demo.no_patterns "/tmp/t" false)
            (Demo.gopts false) ["latest"] [] [] [] "latest" [] ["open"]
            ["open"; "find"] ["open"; "find"; "index"] tt
            ("latest", "root") "sub" (Plain "index unreadable") _ _ _ _).
  - econstructor; try reflexivity. discriminate.
  - reflexivity.
  - reflexivity.
  - reflexivity.
Defined.

Lemma subtree_failure_returned_witness :
  runRestore (Demo.ext_failing Demo.AtFindTreeDirectory)
    (Demo.opts Demo.no_patterns Demo.no_patterns "/tmp/t" false)
    (Demo.gopts false) ["latest"] (start [])
  = (Some (Plain "path not found"),
     mkState ["open"; "find"; "index"; "tree"; "unlock"] 0
       [EvDebugLog "restore latest to /tmp/t"; EvOpenWithReadLock;
        EvFindLatest "latest"; EvLoadIndex; EvFindTreeDirectory "sub";
        EvUnlock]).
Proof.
  refine (subtree_failure_returned
            (Demo.ext_failing Demo.AtFindTreeDirectory)
            (Demo.opts Demo.no_patterns Demo.no_patterns "/tmp/t" false)
            (Demo.gopts false) ["latest"] [] [] [] "latest" [] ["open"]
            ["open"; "find"] ["open"; "find"; "index"]
            ["open"; "find"; "index"; "tree"] tt
            ("latest", "root") "sub" (Plain "path not found") _ _ _ _ _).
  - econstructor; try reflexivity. discriminate.
  - reflexivity.
  - reflexivity.
  - reflexivity.
  - reflexivity.
Defined.

(** One error reported, then the restore gives up: the command returns the
    restorer's error, not "There were 1 errors". *)
Lemma restore_failure_returned_witness :
  let run :=
    runRestore (Demo.ext Demo.aborted_restore Demo.clean_verify)
      (Demo.opts Demo.no_patterns Demo.no_patterns "/tmp/t" true)
      (Demo.gopts false) ["latest"] (start []) in
  fst run = Some (Plain "context canceled")
  /\ totalErrors (snd run) = 1.
Proof.
  cbv zeta.
  edestruct (restore_failure_returned
               (Demo.ext Demo.aborted_restore Demo.clean_verify)
               (Demo.opts Demo.no_patterns Demo.no_patterns "/tmp/t" true)
               (Demo.gopts false) ["latest"] [])
    as [Hrun _].
  - econstructor; try reflexivity. discriminate.
  - reflexivity.
  - split; [exact (f_equal fst Hrun) | reflexivity].
Defined.

Lemma verify_failure_returned_witness :
  let run :=
    runRestore (Demo.ext Demo.clean_restore Demo.aborted_verify)
      (Demo.opts Demo.no_patterns Demo.no_patterns "/tmp/t" true)
      (Demo.gopts false) ["latest"] (start []) in
  fst run = Some (Plain "context canceled")
  /\ totalErrors (snd run) = 1.
Proof.
  cbv zeta.
  split; [|reflexivity].
  refine (f_equal fst
            (verify_failure_returned
               (Demo.ext Demo.clean_restore Demo.aborted_verify)
               (Demo.opts Demo.no_patterns Demo.no_patterns "/tmp/t" true)
               (Demo.gopts false) ["latest"] [] _ _ _ _ _ _ _ _ _ _)).
  - eexists. split; [|split].
    + econstructor; try reflexivity. discriminate.
    + reflexivity.
    + reflexivity.
  - reflexivity.
  - reflexivity.
Defined.

Lemma clean_restore_succeeds_witness :
  fst (runRestore (Demo.ext Demo.warning_restore Demo.clean_verify)
         (Demo.opts Demo.no_patterns Demo.no_patterns "/tmp/t" false)
         (Demo.gopts false) ["latest"] (start []))
  = None.
Proof.
  edestruct (clean_restore_succeeds
               (Demo.ext Demo.warning_restore Demo.clean_verify)
               (Demo.opts Demo.no_patterns Demo.no_patterns "/tmp/t" false)
               (Demo.gopts false) ["latest"] [])
    as [Hrun _].
  - eexists. split; [|split].
    + econstructor; try reflexivity. discriminate.
    + reflexivity.
    + reflexivity.
  - reflexivity.
  - exact (f_equal fst Hrun).
Defined.


Lemma json_prints_no_line_witness :
  existsb is_MsgP
    (events (snd (runRestore (Demo.ext Demo.clean_restore Demo.clean_verify)
                    (Demo.opts Demo.no_patterns Demo.no_patterns "/tmp/t"
                       true)
                    (Demo.gopts true) ["latest"] (start [])))) = false.
Proof.
  apply (json_prints_no_line (Demo.ext Demo.clean_restore Demo.clean_verify)).
  reflexivity.
Defined.

Lemma positive_count_is_an_error_witness :
  fst (runRestore (Demo.ext Demo.three_errors Demo.clean_verify)
         (Demo.opts Demo.no_patterns Demo.no_patterns "/tmp/t" false)
         (Demo.gopts false) ["latest"] (start []))
  <> None.
Proof.
  apply (positive_count_is_an_error
           (Demo.ext Demo.three_errors Demo.clean_verify)).
  vm_compute. reflexivity.
Defined.

Lemma success_means_complete_pass_witness :
  calls (events (snd (runRestore
                        (Demo.ext Demo.clean_restore Demo.clean_verify)
                        (Demo.opts Demo.no_patterns Demo.no_patterns "/tmp/t"
                           true)
                        (Demo.gopts false) ["latest"] (start []))))
  = [COpen; CFindLatest; CLoadIndex; CFindTreeDirectory; CRestoreTo;
     CProgressFinish; CVerifyFiles; CUnlock].
Proof.
  apply (success_means_complete_pass
           (Demo.ext Demo.clean_restore Demo.clean_verify)
           (Demo.opts Demo.no_patterns Demo.no_patterns "/tmp/t" true)).
  reflexivity.
Defined.

(** Without pattern options the compiled predicates are not consulted: the
    always-matching [P2] excludes nothing. *)
Lemma filter_mode_by_option_lists_witness :
  run_engine
    (installed_restorer (Demo.ext Demo.clean_restore Demo.clean_verify)
       (Demo.opts Demo.no_patterns Demo.no_patterns "/tmp/t" false)
       [Demo.P2] [Demo.Q2])
    Demo.warning_restore (start [])
  = run_engine
      (installed_restorer (Demo.ext Demo.clean_restore Demo.clean_verify)
         (Demo.opts Demo.no_patterns Demo.no_patterns "/tmp/t" false)
         [] [])
      Demo.warning_restore (start []).
Proof.
  apply (proj2 (proj2 (filter_mode_by_option_lists
                         (Demo.ext Demo.clean_restore Demo.clean_verify)
                         (Demo.opts Demo.no_patterns Demo.no_patterns
                            "/tmp/t" false)
                         [Demo.P2] [] [Demo.Q2] [] Demo.warning_restore
                         (start [])))); reflexivity.
Defined.

Lemma stages_in_order_witness :
  calls (events (snd (runRestore (Demo.ext_failing Demo.AtOpen)
                        (Demo.opts Demo.no_patterns Demo.no_patterns "/tmp/t"
                           false)
                        (Demo.gopts false) ["latest"] (start []))))
  = [COpen].
Proof.
  refine (proj1 (proj2 (stages_in_order (Demo.ext_failing Demo.AtOpen)
                          (Demo.opts Demo.no_patterns Demo.no_patterns
                             "/tmp/t" false)
                          (Demo.gopts false) ["latest"] [])
                   [] [] "latest" [] _)
            (Fatal "unable to open repository") ["open"] _).
  - econstructor; try reflexivity. discriminate.
  - reflexivity.
Defined.
